(** * ContainerConfig: the container configuration model of the Exegol wrapper

    A shallow embedding of [wrapper/model/ContainerConfig.py].  The Python
    object is a record; every method is a computation in a small
    state-and-exception monad over that record, so that an exception raised
    after a field was assigned keeps the assignment, as in Python.

    Python strings are modelled by [string] (a sequence of bytes, UTF-8 for
    text outside ASCII).  The characters the code looks for (the two quote
    characters, the equals sign, the letters of a protocol name and the
    path fragments) are all ASCII, and no byte of a multi-byte UTF-8
    sequence is an ASCII byte, so searching, stripping and splitting on
    bytes agree with Python's on code points.  Calls to the logger leave the
    configuration untouched and are not modelled. *)

From Stdlib Require Import ZArith Ascii String.
From stdpp Require Import base decidable option list strings pretty gmap fin_maps.

(** ** Python values and string operations *)

(** The loosely typed values the code stores or formats without looking at
    them: a port number given as an integer or as text, or [None]. *)
Inductive pyval : Type :=
  | VNone
  | VInt (z : Z)
  | VStr (s : string).

Global Instance pyval_eq_dec : EqDecision pyval.
Proof. solve_decision. Defined.

(** [str(v)], as an f-string renders a value. *)
Definition py_str (v : pyval) : string :=
  match v with
  | VNone => "None"
  | VInt z => pretty z
  | VStr s => s
  end.

(** [str(o)] for a value that is a string or [None]. *)
Definition py_str_opt (o : option string) : string :=
  match o with
  | None => "None"
  | Some s => s
  end.

Definition squote : ascii := "'"%char.
Definition dquote : ascii := Ascii.ascii_of_nat 34.
Definition equals : ascii := "="%char.

Definition in_chars (a : ascii) (chars : list ascii) : bool :=
  existsb (Ascii.eqb a) chars.

(** [s.lstrip(chars)] *)
Fixpoint lstrip (chars : list ascii) (s : string) : string :=
  match s with
  | "" => ""
  | String a t => if in_chars a chars then lstrip chars t else s
  end.

(** [s.rstrip(chars)] *)
Fixpoint rstrip (chars : list ascii) (s : string) : string :=
  match s with
  | "" => ""
  | String a t =>
      match rstrip chars t with
      | "" => if in_chars a chars then "" else String a ""
      | t' => String a t'
      end
  end.

(** [s.strip(chars)] *)
Definition strip (chars : list ascii) (s : string) : string :=
  rstrip chars (lstrip chars s).

(** [s.split(sep)] for a separator of one character: the pieces between
    the occurrences of [sep], one more than there are occurrences. *)
Fixpoint split (sep : ascii) (s : string) : list string :=
  match s with
  | "" => [""]
  | String a t =>
      if Ascii.eqb a sep then "" :: split sep t
      else match split sep t with
           | piece :: rest => String a piece :: rest
           | [] => [String a ""]
           end
  end.

(** [s.count(sep)] for a separator of one character. *)
Fixpoint count (sep : ascii) (s : string) : nat :=
  match s with
  | "" => 0
  | String a t => (if Ascii.eqb a sep then 1 else 0) + count sep t
  end.

(** [needle in hay] on strings. *)
Fixpoint contains (needle hay : string) : bool :=
  String.prefix needle hay ||
  match hay with
  | "" => false
  | String _ t => contains needle t
  end.

(** [s.lower()].  Only the ASCII letters are mapped: the code compares the
    result with "tcp", "udp" and "sctp", and no character outside ASCII
    lowers to one of the letters of these words. *)
Definition lower_ascii (a : ascii) : ascii :=
  let n := Ascii.nat_of_ascii a in
  if (65 <=? n)%nat && (n <=? 90)%nat then Ascii.ascii_of_nat (n + 32) else a.

Fixpoint lower (s : string) : string :=
  match s with
  | "" => ""
  | String a t => String (lower_ascii a) (lower t)
  end.

(** ** Data model *)

(** Modelled from the spec: [docker.types.Mount], the record of the Docker
    client library that the code builds for every mount; its five fields
    are the ones the code passes (source, target, type, read-only flag,
    propagation).  A source or target read with [dict.get] from an
    inspection record may be [None], and [addVolume] passes no
    propagation.  The library's constructor also checks its arguments (it
    refuses a type it does not know, and options that do not fit the
    type); a construction that it refuses is outside this model, which
    describes the calls that complete. *)
Record Mount : Type := {
  mount_target : option string;
  mount_source : option string;
  mount_type : string;
  mount_read_only : bool;
  mount_propagation : option string
}.

(** One entry of a port-mapping list, [{'HostIp': ..., 'HostPort': ...}]. *)
Record PortBinding : Type := {
  HostIp : string;
  HostPort : pyval
}.

(** The port table maps "port/protocol" to a list of bindings; the table an
    inspection reports holds [null] ([None] here) for an exposed port that
    is not published. *)
Abbreviation PortTable := (gmap string (option (list PortBinding))).

(** The fields of [ContainerConfig.__init__], in its order. *)
Record ContainerConfig : Type := {
  enable_gui : bool;
  share_timezone : bool;
  common_resources : bool;
  network_host : bool;
  ports : PortTable;
  privileged : bool;
  mounts : list Mount;
  devices : list string;
  envs : gmap string string;
  interactive : bool;
  tty : bool;
  shm_size : string;
  share_cwd : option string
}.

(** [ContainerConfig()] without a container: the default values. *)
Definition default_config : ContainerConfig := {|
  enable_gui := false;
  share_timezone := false;
  common_resources := false;
  network_host := true;
  ports := ∅;
  privileged := false;
  mounts := [];
  devices := [];
  envs := ∅;
  interactive := true;
  tty := true;
  shm_size := "1G";
  share_cwd := None
|}.

(** Field assignments, [self.f = v]. *)
Definition set_enable_gui (v : bool) (c : ContainerConfig) : ContainerConfig :=
  {| enable_gui := v; share_timezone := share_timezone c;
     common_resources := common_resources c; network_host := network_host c;
     ports := ports c; privileged := privileged c; mounts := mounts c;
     devices := devices c; envs := envs c; interactive := interactive c;
     tty := tty c; shm_size := shm_size c; share_cwd := share_cwd c |}.

Definition set_share_timezone (v : bool) (c : ContainerConfig) : ContainerConfig :=
  {| enable_gui := enable_gui c; share_timezone := v;
     common_resources := common_resources c; network_host := network_host c;
     ports := ports c; privileged := privileged c; mounts := mounts c;
     devices := devices c; envs := envs c; interactive := interactive c;
     tty := tty c; shm_size := shm_size c; share_cwd := share_cwd c |}.

Definition set_common_resources (v : bool) (c : ContainerConfig) : ContainerConfig :=
  {| enable_gui := enable_gui c; share_timezone := share_timezone c;
     common_resources := v; network_host := network_host c;
     ports := ports c; privileged := privileged c; mounts := mounts c;
     devices := devices c; envs := envs c; interactive := interactive c;
     tty := tty c; shm_size := shm_size c; share_cwd := share_cwd c |}.

Definition set_network_host (v : bool) (c : ContainerConfig) : ContainerConfig :=
  {| enable_gui := enable_gui c; share_timezone := share_timezone c;
     common_resources := common_resources c; network_host := v;
     ports := ports c; privileged := privileged c; mounts := mounts c;
     devices := devices c; envs := envs c; interactive := interactive c;
     tty := tty c; shm_size := shm_size c; share_cwd := share_cwd c |}.

Definition set_ports (v : PortTable) (c : ContainerConfig) : ContainerConfig :=
  {| enable_gui := enable_gui c; share_timezone := share_timezone c;
     common_resources := common_resources c; network_host := network_host c;
     ports := v; privileged := privileged c; mounts := mounts c;
     devices := devices c; envs := envs c; interactive := interactive c;
     tty := tty c; shm_size := shm_size c; share_cwd := share_cwd c |}.

Definition set_privileged (v : bool) (c : ContainerConfig) : ContainerConfig :=
  {| enable_gui := enable_gui c; share_timezone := share_timezone c;
     common_resources := common_resources c; network_host := network_host c;
     ports := ports c; privileged := v; mounts := mounts c;
     devices := devices c; envs := envs c; interactive := interactive c;
     tty := tty c; shm_size := shm_size c; share_cwd := share_cwd c |}.

Definition set_mounts (v : list Mount) (c : ContainerConfig) : ContainerConfig :=
  {| enable_gui := enable_gui c; share_timezone := share_timezone c;
     common_resources := common_resources c; network_host := network_host c;
     ports := ports c; privileged := privileged c; mounts := v;
     devices := devices c; envs := envs c; interactive := interactive c;
     tty := tty c; shm_size := shm_size c; share_cwd := share_cwd c |}.

Definition set_devices (v : list string) (c : ContainerConfig) : ContainerConfig :=
  {| enable_gui := enable_gui c; share_timezone := share_timezone c;
     common_resources := common_resources c; network_host := network_host c;
     ports := ports c; privileged := privileged c; mounts := mounts c;
     devices := v; envs := envs c; interactive := interactive c;
     tty := tty c; shm_size := shm_size c; share_cwd := share_cwd c |}.

Definition set_envs (v : gmap string string) (c : ContainerConfig) : ContainerConfig :=
  {| enable_gui := enable_gui c; share_timezone := share_timezone c;
     common_resources := common_resources c; network_host := network_host c;
     ports := ports c; privileged := privileged c; mounts := mounts c;
     devices := devices c; envs := v; interactive := interactive c;
     tty := tty c; shm_size := shm_size c; share_cwd := share_cwd c |}.

Definition set_interactive (v : bool) (c : ContainerConfig) : ContainerConfig :=
  {| enable_gui := enable_gui c; share_timezone := share_timezone c;
     common_resources := common_resources c; network_host := network_host c;
     ports := ports c; privileged := privileged c; mounts := mounts c;
     devices := devices c; envs := envs c; interactive := v;
     tty := tty c; shm_size := shm_size c; share_cwd := share_cwd c |}.

Definition set_tty (v : bool) (c : ContainerConfig) : ContainerConfig :=
  {| enable_gui := enable_gui c; share_timezone := share_timezone c;
     common_resources := common_resources c; network_host := network_host c;
     ports := ports c; privileged := privileged c; mounts := mounts c;
     devices := devices c; envs := envs c; interactive := interactive c;
     tty := v; shm_size := shm_size c; share_cwd := share_cwd c |}.

Definition set_share_cwd (v : option string) (c : ContainerConfig) : ContainerConfig :=
  {| enable_gui := enable_gui c; share_timezone := share_timezone c;
     common_resources := common_resources c; network_host := network_host c;
     ports := ports c; privileged := privileged c; mounts := mounts c;
     devices := devices c; envs := envs c; interactive := interactive c;
     tty := tty c; shm_size := shm_size c; share_cwd := v |}.

(** ** Exceptions and the method monad *)

Inductive exn : Type :=
  | NotImplementedError
  | ValueError
  | KeyError (key : string)
  | ProtocolNotSupported (msg : string).

Inductive outcome (A : Type) : Type :=
  | Return (a : A)
  | Raise (e : exn).
Arguments Return {A} a.
Arguments Raise {A} e.

(** A method body: from the object's state to what the call gives (a value
    or an exception) and the state it leaves. *)
Definition M (A : Type) : Type := ContainerConfig → outcome A * ContainerConfig.

Global Instance M_ret : MRet M := λ A a c, (Return a, c).
Global Instance M_bind : MBind M := λ A B f m c,
  match m c with
  | (Return a, c') => f a c'
  | (Raise e, c') => (Raise e, c')
  end.

Definition raise {A : Type} (e : exn) : M A := λ c, (Raise e, c).
Definition get : M ContainerConfig := λ c, (Return c, c).
Definition modify (f : ContainerConfig → ContainerConfig) : M unit :=
  λ c, (Return tt, f c).

(** [for x in l: body(x)] *)
Fixpoint for_each {A : Type} (l : list A) (body : A → M unit) : M unit :=
  match l with
  | [] => mret tt
  | x :: l' => body x ;; for_each l' body
  end.

Definition result {A : Type} (m : M A) (c : ContainerConfig) : outcome A := fst (m c).
Definition exec {A : Type} (m : M A) (c : ContainerConfig) : ContainerConfig := snd (m c).

(** ** The host the wrapper runs on *)

(** What the methods ask of the operating system: [platform.system()],
    [platform.release()], [os.getenv('DISPLAY')] and [os.getcwd()]. *)
Record Host : Type := {
  platform_system : string;
  platform_release : string;
  env_DISPLAY : option string;
  getcwd : string
}.

(** [platform.system() == "Windows" or "microsoft" in platform.release()] *)
Definition on_windows (h : Host) : bool :=
  bool_decide (platform_system h = "Windows") || contains "microsoft" (platform_release h).

(** ** Imperative builders *)

(** [addVolume(host_path, container_path, read_only=False, volume_type='bind')]:
    [Mount(container_path, host_path, read_only=read_only, type=volume_type)]
    is appended to the mounts. *)
Definition addVolume (host_path container_path : string)
    (read_only : bool) (volume_type : string) : M unit :=
  let mount := {| mount_target := Some container_path;
                  mount_source := Some host_path;
                  mount_type := volume_type;
                  mount_read_only := read_only;
                  mount_propagation := None |} in
  modify (λ c, set_mounts (mounts c ++ [mount]) c).

(** [addDevice(device_source, device_dest=None, readonly=False, mknod=True)] *)
Definition addDevice (device_source : string) (device_dest : option string)
    (readonly mknod : bool) : M unit :=
  let device_dest := default device_source device_dest in
  let perm := "r" in
  let perm := if negb readonly then perm +:+ "w" else perm in
  let perm := if mknod then perm +:+ "m" else perm in
  modify (λ c, set_devices
    (devices c ++ [device_source +:+ ":" +:+ device_dest +:+ ":" +:+ perm]) c).

(** [addEnv(key, value)]: [self.envs[key] = value] *)
Definition addEnv (key value : string) : M unit :=
  modify (λ c, set_envs (<[key := value]> (envs c)) c).

Definition supported_protocols : list string := ["tcp"; "udp"; "sctp"].

(** [addPort(port_host, port_container=None, protocol='tcp', host_ip='0.0.0.0')] *)
Definition addPort (port_host port_container : pyval)
    (protocol host_ip : string) : M unit :=
  c ← get;
  if network_host c then
    mret tt
  else if negb (bool_decide (lower protocol ∈ supported_protocols)) then
    raise (ProtocolNotSupported ("Unknown protocol '" +:+ protocol +:+ "'"))
  else
    modify (λ c, set_ports
      (<[py_str port_container +:+ "/" +:+ protocol :=
           Some [ {| HostIp := host_ip; HostPort := port_host |} ] ]> (ports c)) c).

(** ** Feature toggles *)

Definition enableGUI (h : Host) : M unit :=
  if on_windows h then
    mret tt
  else
    c ← get;
    if negb (enable_gui c) then
      modify (set_enable_gui true) ;;
      addVolume "/tmp/.X11-unix" "/tmp/.X11-unix" false "bind" ;;
      addEnv "QT_X11_NO_MITSHM" "1" ;;
      addEnv "DISPLAY" ("unix" +:+ py_str_opt (env_DISPLAY h))
    else
      mret tt.

Definition enableSharedTimezone (h : Host) : M unit :=
  if on_windows h then
    mret tt
  else
    c ← get;
    if negb (share_timezone c) then
      modify (set_share_timezone true) ;;
      addVolume "/etc/timezone" "/etc/timezone" true "bind" ;;
      addVolume "/etc/localtime" "/etc/localtime" true "bind"
    else
      mret tt.

Definition enableCommonVolume : M unit :=
  c ← get;
  if negb (common_resources c) then
    modify (set_common_resources true) ;;
    raise NotImplementedError
  else
    mret tt.

(** [self.__share_cwd = os.getcwd()], then the mount is added from
    [self.__share_cwd], which holds the path just assigned. *)
Definition enableCwdShare (h : Host) : M unit :=
  let cwd := getcwd h in
  modify (set_share_cwd (Some cwd)) ;;
  addVolume cwd "/workspace" false "bind".

(** ** Derived queries *)

Definition getNetworkMode (c : ContainerConfig) : string :=
  if network_host c then "host" else "bridge".

Definition getWorkingDir (c : ContainerConfig) : string :=
  if bool_decide (share_cwd c ≠ None) then "/workspace" else "/data".

(** ** Hydration from an inspected container *)

(** A key of an inspection record whose value the code tests against
    [None]: the key may be absent, hold [null], or hold a value. *)
Inductive jfield (A : Type) : Type :=
  | Absent
  | Null
  | Present (a : A).
Arguments Absent {A}.
Arguments Null {A}.
Arguments Present {A} a.

(** [d.get(key, fallback)] for such a key: the fallback when the key is
    absent, [None] when it holds [null]. *)
Definition jget {A : Type} (fallback : A) (f : jfield A) : option A :=
  match f with
  | Absent => Some fallback
  | Null => None
  | Present a => Some a
  end.

(** One entry of the inspection's ["Mounts"] list.  [None] is an absent
    key; a key that is present holds a value of the type the inspection
    interface gives it. *)
Record Share : Type := {
  share_Type : option string;
  share_Driver : option string;
  share_Name : option string;
  share_Source : option string;
  share_Destination : option string;
  share_RW : option bool;
  share_Propagation : option string
}.

(** The ["Config"], ["HostConfig"] and ["NetworkSettings"] sections with
    the keys the code reads.  ["Networks"] is a mapping of which only the
    keys (the network names) are looked at.  An environment list or a
    network mapping is absent or holds a value; one that holds [null] is
    outside this model. *)
Record ConfigSection : Type := {
  config_Tty : option bool;
  config_Env : option (list string);
  config_OpenStdin : option bool
}.

Record HostConfigSection : Type := {
  hostconfig_Privileged : option bool;
  hostconfig_Devices : jfield (list string)
}.

Record NetworkSettingsSection : Type := {
  network_Networks : option (gset string);
  network_Ports : option PortTable
}.

(** [container.attrs]; a section that is absent reads as the empty
    mapping. *)
Record ContainerAttrs : Type := {
  attrs_Config : option ConfigSection;
  attrs_HostConfig : option HostConfigSection;
  attrs_Mounts : jfield (list Share);
  attrs_NetworkSettings : option NetworkSettingsSection
}.

Definition empty_ConfigSection : ConfigSection :=
  {| config_Tty := None; config_Env := None; config_OpenStdin := None |}.
Definition empty_HostConfigSection : HostConfigSection :=
  {| hostconfig_Privileged := None; hostconfig_Devices := Absent |}.
Definition empty_NetworkSettingsSection : NetworkSettingsSection :=
  {| network_Networks := None; network_Ports := None |}.

(** The body of the loop of [__parseEnvs]: the entry without the quotes
    around it (single, then double quotes stripped from both ends:
    [unquote]) is split at the equals signs, the two pieces are unpacked into key and value (any other
    number of pieces is a [ValueError]) and stored. *)
Definition unquote (env : string) : string :=
  strip [dquote] (strip [squote] env).

Definition parseEnv (env : string) : M unit :=
  match split equals (unquote env) with
  | [key; value] => modify (λ c, set_envs (<[key := value]> (envs c)) c)
  | _ => raise ValueError
  end.

Definition parseEnvs (envs : list string) : M unit :=
  for_each envs parseEnv.

(** The body of the loop of [__parseMounts]. *)
Definition parseMount (share : Share) : M unit :=
  let source :=
    if bool_decide (default "volume" (share_Type share) = "volume") then
      Some ("Docker " +:+ default "" (share_Driver share) +:+ " volume "
            +:+ default "unknown" (share_Name share))
    else share_Source share in
  modify (λ c, set_mounts (mounts c ++ [
    {| mount_source := source;
       mount_target := share_Destination share;
       mount_type := default "volume" (share_Type share);
       mount_read_only := negb (default true (share_RW share));
       mount_propagation := Some (default "" (share_Propagation share)) |} ]) c) ;;
  if contains "/etc/timezone" (default "" (share_Destination share)) then
    modify (set_share_timezone true)
  else if contains "/opt/resources" (default "" (share_Destination share)) then
    modify (set_common_resources true)
  else if contains "/workspace" (default "" (share_Destination share)) then
    modify (set_share_cwd (Some (default "" (share_Source share))))
  else
    mret tt.

(** A mount counts for the working directory when its target names
    /workspace and neither of the two paths tested before it. *)
Definition workspace_target (share : Share) : Prop :=
  contains "/etc/timezone" (default "" (share_Destination share)) = false ∧
  contains "/opt/resources" (default "" (share_Destination share)) = false ∧
  contains "/workspace" (default "" (share_Destination share)) = true.

(** [__parseMounts(mounts)]; [mounts] may be [None]. *)
Definition parseMounts (mounts : option (list Share)) : M unit :=
  let mounts := default [] mounts in
  for_each mounts parseMount.

(** [__parseContainerConfig(container)] *)
Definition parseContainerConfig (container : ContainerAttrs) : M unit :=
  (* Container Config section *)
  let container_config := default empty_ConfigSection (attrs_Config container) in
  modify (set_tty (default true (config_Tty container_config))) ;;
  parseEnvs (default [] (config_Env container_config)) ;;
  modify (set_interactive (default true (config_OpenStdin container_config))) ;;
  modify (set_enable_gui false) ;;
  c ← get;
  (if existsb (contains "DISPLAY") (map_to_list (envs c)).*1
   then modify (set_enable_gui true) else mret tt) ;;
  (* Host Config section *)
  let host_config := default empty_HostConfigSection (attrs_HostConfig container) in
  modify (set_privileged (default false (hostconfig_Privileged host_config))) ;;
  modify (set_devices (default [] (jget [] (hostconfig_Devices host_config)))) ;;
  (* Volumes section *)
  modify (set_share_timezone false) ;;
  modify (set_common_resources false) ;;
  parseMounts (jget [] (attrs_Mounts container)) ;;
  (* Network section *)
  let network_settings :=
    default empty_NetworkSettingsSection (attrs_NetworkSettings container) in
  match network_Networks network_settings with
  | None => raise (KeyError "Networks")
  | Some networks =>
      modify (set_network_host (bool_decide ("host" ∈ networks))) ;;
      modify (set_ports (default ∅ (network_Ports network_settings)))
  end.

(** [ContainerConfig(container)]: the default values, then the container's
    when one is given.  An exception leaves no object behind. *)
Definition init (container : option ContainerAttrs) : outcome ContainerConfig :=
  match container with
  | None => Return default_config
  | Some container =>
      match parseContainerConfig container default_config with
      | (Return _, c) => Return c
      | (Raise e, _) => Raise e
      end
  end.

(** The text of an entry before its first equals sign. *)
Definition env_key (env : string) : string :=
  hd "" (split equals (unquote env)).

(** The entries of an environment mapping written back as "key=value". *)
Definition serialize_envs (m : gmap string string) : list string :=
  (λ kv, kv.1 +:+ "=" +:+ kv.2) <$> map_to_list m.

(** ** Text formatters *)

Section Formatters.
(** [getColor] and [boolFormatter] of [wrapper.console.ConsoleFormat] and
    the platform's [os.linesep] are taken as they come. *)
Variable getColor : bool → string * string.
Variable boolFormatter : bool → string.
Variable linesep : string.

(** [getFeaturesDetails()]: the f-string, piece by piece. *)
Definition getFeaturesDetails (c : ContainerConfig) : string :=
  (getColor (privileged c)).1 +:+ "Privileged: "
    +:+ (if privileged c then ":fire:" else "[red]:cross_mark:[/red]")
    +:+ (getColor (privileged c)).2 +:+ linesep
  +:+ (getColor (enable_gui c)).1 +:+ "GUI: " +:+ boolFormatter (enable_gui c)
    +:+ (getColor (enable_gui c)).2 +:+ linesep
  +:+ "Network mode: " +:+ (if network_host c then "host" else "custom") +:+ linesep
  +:+ (getColor (share_timezone c)).1 +:+ "Share timezone: "
    +:+ boolFormatter (share_timezone c) +:+ (getColor (share_timezone c)).2 +:+ linesep
  +:+ (getColor (common_resources c)).1 +:+ "Common resources: "
    +:+ boolFormatter (common_resources c) +:+ (getColor (common_resources c)).2
    +:+ linesep.

(** The lines of that text around the network line: a coloured flag
    line, and the privileged line with its own marks. *)
Definition flag_line (label : string) (flag : bool) : string :=
  (getColor flag).1 +:+ label +:+ boolFormatter flag +:+ (getColor flag).2 +:+ linesep.

Definition privileged_line (c : ContainerConfig) : string :=
  (getColor (privileged c)).1 +:+ "Privileged: "
    +:+ (if privileged c then ":fire:" else "[red]:cross_mark:[/red]")
    +:+ (getColor (privileged c)).2 +:+ linesep.
End Formatters.

(** ** Sample inputs *)

Definition plain_getColor (flag : bool) : string * string :=
  if flag then ("[green]", "[/green]") else ("[orange3]", "[/orange3]").

Definition plain_boolFormatter (flag : bool) : string :=
  if flag then "on" else "off".

Definition newline : string := String (Ascii.ascii_of_nat 10) "".

Definition linux_host : Host := {|
  platform_system := "Linux";
  platform_release := "5.15.0-76-generic";
  env_DISPLAY := Some ":0";
  getcwd := "/home/user/project"
|}.

(** A bind mount as an inspection lists it. *)
Definition bind_share (source destination : string) : Share := {|
  share_Type := Some "bind";
  share_Driver := None;
  share_Name := None;
  share_Source := Some source;
  share_Destination := Some destination;
  share_RW := Some true;
  share_Propagation := Some "rprivate"
|}.

(** An inspected container on the bridge network with the given
    environment and mounts. *)
Definition bridge_container (env : list string) (shares : list Share) : ContainerAttrs := {|
  attrs_Config :=
    Some {| config_Tty := Some true; config_Env := Some env; config_OpenStdin := Some true |};
  attrs_HostConfig := None;
  attrs_Mounts := Present shares;
  attrs_NetworkSettings :=
    Some {| network_Networks := Some {[ "bridge" ]}; network_Ports := None |}
|}.

(** ** The entries of an environment list, as the specification reads them *)

Definition is_quote (a : ascii) : bool := in_chars a [squote; dquote].

Definition first_char (s : string) : option ascii :=
  match s with
  | "" => None
  | String a _ => Some a
  end.

Fixpoint last_char (s : string) : option ascii :=
  match s with
  | "" => None
  | String a t => match t with "" => Some a | _ => last_char t end
  end.

Fixpoint drop_last (s : string) : string :=
  match s with
  | "" => ""
  | String a t => match t with "" => "" | _ => String a (drop_last t) end
  end.

(** Follows the specification's words, not the code: an entry is
    "optionally wrapped in matching single or double quotes around the
    whole entry".  An entry that begins with a quote character and ends
    with the same one is read without that pair; any other entry is read
    as it is. *)
Definition spec_unwrap (env : string) : string :=
  match env with
  | "" => ""
  | String q t =>
      if is_quote q && bool_decide (last_char t = Some q) then drop_last t else env
  end.

(** The key of an entry read that way: its text before the first equals
    sign. *)
Definition spec_key (env : string) : string :=
  hd "" (split equals (spec_unwrap env)).

(** A text that neither begins nor ends with a quote character. *)
Definition clean_ends (s : string) : bool :=
  negb (from_option is_quote false (first_char s))
  && negb (from_option is_quote false (last_char s)).

(** ** Text of the mounts and of the devices *)

(** The targets [getTextMounts] leaves out unless it is verbose.  A target
    that is [None] is none of them. *)
Definition technical_targets : list (option string) :=
  [Some "/tmp/.X11-unix"; Some "/opt/resources"].

Section TextFormatters.
Variable linesep : string.

(** The line [getTextMounts] writes for a mount: source, arrow, target,
    and "(RO)" for a read-only mount. *)
Definition mount_line (mount : Mount) : string :=
  py_str_opt (mount_source mount) +:+ " :right_arrow: "
    +:+ py_str_opt (mount_target mount) +:+ " "
    +:+ (if mount_read_only mount then "(RO)" else "") +:+ linesep.

(** [getTextMounts(verbose=False)] *)
Definition getTextMounts (verbose : bool) (c : ContainerConfig) : string :=
  fold_left
    (λ result mount,
       if negb verbose && bool_decide (mount_target mount ∈ technical_targets)
       then result
       else result +:+ mount_line mount)
    (mounts c) "".

(** [getTextDevices(verbose=False)]: the device as it is stored when
    verbose, else its first two fields joined by an arrow. *)
Definition getTextDevices (verbose : bool) (c : ContainerConfig) : string :=
  fold_left
    (λ result device,
       if verbose then result +:+ (device +:+ linesep)
       else result +:+ (String.concat ":right_arrow:" (take 2 (split ":"%char device))
                        +:+ linesep))
    (devices c) "".
End TextFormatters.

(** ** Sequences of method calls *)

(** A call of one of the methods that build a configuration up, with its
    arguments. *)
Inductive call : Type :=
  | CallEnableGUI (h : Host)
  | CallEnableSharedTimezone (h : Host)
  | CallEnableCommonVolume
  | CallEnableCwdShare (h : Host)
  | CallAddVolume (host_path container_path : string) (read_only : bool)
      (volume_type : string)
  | CallAddDevice (device_source : string) (device_dest : option string)
      (readonly mknod : bool)
  | CallAddEnv (key value : string)
  | CallAddPort (port_host port_container : pyval) (protocol host_ip : string).

Definition run_call (k : call) : M unit :=
  match k with
  | CallEnableGUI h => enableGUI h
  | CallEnableSharedTimezone h => enableSharedTimezone h
  | CallEnableCommonVolume => enableCommonVolume
  | CallEnableCwdShare h => enableCwdShare h
  | CallAddVolume host_path container_path read_only volume_type =>
      addVolume host_path container_path read_only volume_type
  | CallAddDevice device_source device_dest readonly mknod =>
      addDevice device_source device_dest readonly mknod
  | CallAddEnv key value => addEnv key value
  | CallAddPort port_host port_container protocol host_ip =>
      addPort port_host port_container protocol host_ip
  end.

(** The configuration after the calls, made one after the other by a
    caller that goes on after a call that raises. *)
Definition after_calls (calls : list call) (c : ContainerConfig) : ContainerConfig :=
  fold_left (λ c k, exec (run_call k) c) calls c.


(** The mounts the two guarded toggles add. *)
Definition bind_mount (path : string) (read_only : bool) : Mount :=
  {| mount_target := Some path; mount_source := Some path; mount_type := "bind";
     mount_read_only := read_only; mount_propagation := None |}.

(** What the GUI flag and the timezone flag stand for. *)
Definition gui_wired (c : ContainerConfig) : Prop :=
  enable_gui c = true →
  bind_mount "/tmp/.X11-unix" false ∈ mounts c ∧
  is_Some (envs c !! "QT_X11_NO_MITSHM") ∧ is_Some (envs c !! "DISPLAY").

Definition timezone_wired (c : ContainerConfig) : Prop :=
  share_timezone c = true →
  bind_mount "/etc/timezone" true ∈ mounts c ∧
  bind_mount "/etc/localtime" true ∈ mounts c.

(** * Properties *)

(** ** Running method bodies *)

Ltac unfold_M :=
  unfold result, exec, addPort, addEnv, addVolume, addDevice, enableGUI,
    enableSharedTimezone, enableCommonVolume, enableCwdShare,
    mbind, M_bind, mret, M_ret, get, modify, raise in *.

(** ** The examples of the specification *)

Example fresh_config_network_mode : getNetworkMode default_config = "host".
Proof. reflexivity. Qed.

Example bridge_addPort_8080_80 :
  ports (exec (addPort (VInt 8080) (VInt 80) "tcp" "0.0.0.0")
              (set_network_host false default_config)) !! "80/tcp"
    = Some (Some [ {| HostIp := "0.0.0.0"; HostPort := VInt 8080 |} ]).
Proof. vm_compute. reflexivity. Qed.

Example addDevice_snd :
  devices (exec (addDevice "/dev/snd" None false true) default_config)
    = ["/dev/snd:/dev/snd:rwm"].
Proof. reflexivity. Qed.

Example hydrate_readonly_timezone_mount :
  let share := {| share_Type := Some "bind"; share_Driver := None; share_Name := None;
                  share_Source := Some "/etc/timezone";
                  share_Destination := Some "/etc/timezone";
                  share_RW := Some false; share_Propagation := None |} in
  ∃ c, init (Some (bridge_container [] [share])) = Return c ∧
       share_timezone c = true ∧
       mount_read_only <$> mounts c = [true].
Proof. eexists. split; [vm_compute; reflexivity |]. split; reflexivity. Qed.

(** ** Ports *)

Lemma lower_supported_protocol (protocol : string) :
  protocol ∈ supported_protocols → lower protocol ∈ supported_protocols.
Proof.
  unfold supported_protocols. intros H.
  repeat (apply elem_of_cons in H as [-> | H];
          [apply (bool_decide_unpack _); vm_compute; exact I |]).
  by apply elem_of_nil in H.
Qed.

(** C4. While the configuration shares the host's network, [addPort] returns
    normally and leaves the whole configuration, the port table included, as
    it was, whatever its arguments. *)
Theorem addPort_network_host_noop (c : ContainerConfig)
    (port_host port_container : pyval) (protocol host_ip : string) :
  network_host c = true →
  addPort port_host port_container protocol host_ip c = (Return tt, c).
Proof. intros Hnet. unfold_M. by rewrite Hnet. Qed.

Lemma addPort_network_host_noop_witness :
  network_host default_config = true ∧
  addPort (VInt 8080) (VInt 80) "icmp" "0.0.0.0" default_config
    = (Return tt, default_config).
Proof.
  split; [reflexivity |].
  apply (addPort_network_host_noop default_config (VInt 8080) (VInt 80) "icmp" "0.0.0.0").
  reflexivity.
Defined.

(** C3, as the code has it.  In bridge mode [addPort] accepts a protocol
    whose lower-case form is "tcp", "udp" or "sctp" (so these three words
    themselves, and also "TCP" or "Udp"): it returns normally and binds the
    key "<container port>/<protocol as given>" to the one-element list
    [{HostIp, HostPort}], replacing what the key held and leaving every
    other key and field alone.  For every other protocol it raises
    ProtocolNotSupported and leaves the configuration unchanged. *)
Theorem addPort_bridge (c : ContainerConfig)
    (port_host port_container : pyval) (protocol host_ip : string) :
  network_host c = false →
  let key := py_str port_container +:+ "/" +:+ protocol in
  let binding := {| HostIp := host_ip; HostPort := port_host |} in
  (protocol ∈ supported_protocols → lower protocol ∈ supported_protocols) ∧
  (lower protocol ∈ supported_protocols →
     addPort port_host port_container protocol host_ip c
       = (Return tt, set_ports (<[key := Some [binding]]> (ports c)) c) ∧
     ports (exec (addPort port_host port_container protocol host_ip) c) !! key
       = Some (Some [binding]) ∧
     ∀ k, k ≠ key →
       ports (exec (addPort port_host port_container protocol host_ip) c) !! k
         = ports c !! k) ∧
  (lower protocol ∉ supported_protocols →
     addPort port_host port_container protocol host_ip c
       = (Raise (ProtocolNotSupported ("Unknown protocol '" +:+ protocol +:+ "'")), c)).
Proof.
  intros Hnet key binding. split; [apply lower_supported_protocol |].
  unfold_M. rewrite Hnet. split; intros Hproto.
  - rewrite bool_decide_eq_true_2 by done. simpl. split; [done |]. split.
    + apply lookup_insert_eq.
    + intros k Hk. by apply lookup_insert_ne.
  - by rewrite bool_decide_eq_false_2.
Qed.

Lemma addPort_bridge_witness :
  let c := set_network_host false default_config in
  addPort (VInt 8080) (VInt 80) "tcp" "0.0.0.0" c
    = (Return tt,
       set_ports (<["80/tcp" := Some [ {| HostIp := "0.0.0.0"; HostPort := VInt 8080 |} ]]>
                    (ports c)) c) ∧
  addPort (VInt 8080) (VInt 80) "icmp" "0.0.0.0" c
    = (Raise (ProtocolNotSupported "Unknown protocol 'icmp'"), c).
Proof.
  pose proof (addPort_bridge (set_network_host false default_config)
                (VInt 8080) (VInt 80) "tcp" "0.0.0.0" eq_refl) as (_ & Hok & _).
  pose proof (addPort_bridge (set_network_host false default_config)
                (VInt 8080) (VInt 80) "icmp" "0.0.0.0" eq_refl) as (_ & _ & Hko).
  split.
  - apply Hok. apply (bool_decide_unpack _). vm_compute. exact I.
  - apply Hko. apply (bool_decide_unpack _). vm_compute. exact I.
Defined.

(** C3 fails as stated: "TCP" is none of the three words, yet the call
    returns normally and the port table gains the key "80/TCP". *)
Lemma addPort_uppercase_protocol_accepted :
  ("TCP" ∉ ["tcp"; "udp"; "sctp"]) ∧
  network_host (set_network_host false default_config) = false ∧
  result (addPort (VInt 8080) (VInt 80) "TCP" "0.0.0.0")
         (set_network_host false default_config) = Return tt ∧
  ports (set_network_host false default_config) !! "80/TCP" = None ∧
  ports (exec (addPort (VInt 8080) (VInt 80) "TCP" "0.0.0.0")
              (set_network_host false default_config)) !! "80/TCP"
    = Some (Some [ {| HostIp := "0.0.0.0"; HostPort := VInt 8080 |} ]).
Proof.
  split; [apply (bool_decide_unpack _); vm_compute; exact I |].
  split; [reflexivity |]. split; [reflexivity |].
  split; [reflexivity |]. vm_compute. reflexivity.
Qed.

(** C9. In bridge mode, [addPort] called without a container port (the
    default, [None]) and with an accepted protocol stores the binding under
    the key "None/<protocol>". *)
Theorem addPort_unset_container_port (c : ContainerConfig)
    (port_host : pyval) (protocol host_ip : string) :
  network_host c = false →
  lower protocol ∈ supported_protocols →
  addPort port_host VNone protocol host_ip c
    = (Return tt,
       set_ports (<["None/" +:+ protocol :=
                      Some [ {| HostIp := host_ip; HostPort := port_host |} ]]> (ports c)) c) ∧
  ports (exec (addPort port_host VNone protocol host_ip) c) !! ("None/" +:+ protocol)
    = Some (Some [ {| HostIp := host_ip; HostPort := port_host |} ]).
Proof.
  intros Hnet Hproto. unfold_M. rewrite Hnet.
  rewrite bool_decide_eq_true_2 by done. simpl. split; [done |].
  apply lookup_insert_eq.
Qed.

Lemma addPort_unset_container_port_witness :
  ports (exec (addPort (VInt 8080) VNone "tcp" "0.0.0.0")
              (set_network_host false default_config)) !! "None/tcp"
    = Some (Some [ {| HostIp := "0.0.0.0"; HostPort := VInt 8080 |} ]).
Proof.
  apply (addPort_unset_container_port (set_network_host false default_config)
           (VInt 8080) "tcp" "0.0.0.0").
  - reflexivity.
  - apply (bool_decide_unpack _). vm_compute. exact I.
Defined.

(** ** Feature toggles *)

(** C1, as the code has it.  [enableCommonVolume] is guarded by the flag:
    called with commonResources false it sets the flag and then raises the
    unimplemented-feature error; called with the flag already true it
    returns normally and changes nothing.  Either way the flag is true
    afterwards. *)
Theorem enableCommonVolume_guarded (c : ContainerConfig) :
  (common_resources c = false →
     enableCommonVolume c = (Raise NotImplementedError, set_common_resources true c)) ∧
  (common_resources c = true → enableCommonVolume c = (Return tt, c)) ∧
  common_resources (exec enableCommonVolume c) = true.
Proof.
  unfold_M. destruct (common_resources c) eqn:Hflag; simpl; repeat split; congruence.
Qed.

Lemma enableCommonVolume_guarded_witness :
  enableCommonVolume default_config
    = (Raise NotImplementedError, set_common_resources true default_config) ∧
  enableCommonVolume (set_common_resources true default_config)
    = (Return tt, set_common_resources true default_config).
Proof.
  split.
  - apply (enableCommonVolume_guarded default_config). reflexivity.
  - apply (enableCommonVolume_guarded (set_common_resources true default_config)).
    reflexivity.
Defined.

(** C5. On a host that is not Windows, a second [enableGUI] (on any host)
    after a first one changes nothing: the two calls in sequence are the
    first call alone, in what they return and in every field, so in the
    mounts, the environment and the GUI flag. *)
Theorem enableGUI_idempotent (h h' : Host) (c : ContainerConfig) :
  on_windows h = false →
  (enableGUI h ;; enableGUI h') c = enableGUI h c ∧
  mounts (exec (enableGUI h ;; enableGUI h') c) = mounts (exec (enableGUI h) c) ∧
  envs (exec (enableGUI h ;; enableGUI h') c) = envs (exec (enableGUI h) c) ∧
  enable_gui (exec (enableGUI h ;; enableGUI h') c) = enable_gui (exec (enableGUI h) c).
Proof.
  intros Hsup.
  assert ((enableGUI h ;; enableGUI h') c = enableGUI h c) as Heq.
  { unfold_M. rewrite Hsup.
    destruct (enable_gui c) eqn:Hgui; simpl;
      destruct (on_windows h'); simpl; rewrite ?Hgui; reflexivity. }
  unfold exec. rewrite Heq. done.
Qed.

Lemma enableGUI_idempotent_witness :
  on_windows linux_host = false ∧
  (enableGUI linux_host ;; enableGUI linux_host) default_config
    = enableGUI linux_host default_config.
Proof.
  split; [reflexivity |].
  apply (enableGUI_idempotent linux_host linux_host default_config). reflexivity.
Defined.

(** C1 fails as stated: a second call in a row, and a call on a
    configuration hydrated from a container with a mount on /opt/resources,
    both return normally instead of raising. *)
Lemma enableCommonVolume_returns_when_flag_set :
  result enableCommonVolume default_config = Raise NotImplementedError ∧
  common_resources (exec enableCommonVolume default_config) = true ∧
  result enableCommonVolume (exec enableCommonVolume default_config) = Return tt ∧
  ∃ c, init (Some (bridge_container [] [bind_share "/opt/exegol" "/opt/resources"]))
         = Return c ∧
       common_resources c = true ∧
       result enableCommonVolume c = Return tt.
Proof.
  repeat (split; [reflexivity |]).
  eexists. split; [vm_compute; reflexivity |]. split; reflexivity.
Qed.

(** ** Network mode *)

Lemma string_app_assoc (s1 s2 s3 : string) : (s1 +:+ s2) +:+ s3 = s1 +:+ (s2 +:+ s3).
Proof.
  induction s1 as [|a s1 IH]; [reflexivity | exact (f_equal (String a) IH)].
Qed.

(** C10. With networkHost false, [getNetworkMode] answers "bridge" while
    the network line of [getFeaturesDetails], between the GUI line and the
    timezone line, reads "Network mode: custom"; with networkHost true both
    say "host". *)
Theorem network_mode_texts (getColor : bool → string * string)
    (boolFormatter : bool → string) (linesep : string) (c : ContainerConfig) :
  let features (mode : string) :=
    privileged_line getColor linesep c
    +:+ flag_line getColor boolFormatter linesep "GUI: " (enable_gui c)
    +:+ ("Network mode: " +:+ mode +:+ linesep)
    +:+ flag_line getColor boolFormatter linesep "Share timezone: " (share_timezone c)
    +:+ flag_line getColor boolFormatter linesep "Common resources: " (common_resources c) in
  (network_host c = false →
     getNetworkMode c = "bridge" ∧
     getFeaturesDetails getColor boolFormatter linesep c = features "custom") ∧
  (network_host c = true →
     getNetworkMode c = "host" ∧
     getFeaturesDetails getColor boolFormatter linesep c = features "host").
Proof.
  intros features. subst features.
  unfold getNetworkMode, getFeaturesDetails, privileged_line, flag_line.
  split; intros ->; (split; [reflexivity |]);
    rewrite !string_app_assoc; reflexivity.
Qed.

Lemma network_mode_texts_witness :
  getNetworkMode (set_network_host false default_config) = "bridge" ∧
  getFeaturesDetails plain_getColor plain_boolFormatter newline
      (set_network_host false default_config)
    = privileged_line plain_getColor newline (set_network_host false default_config)
      +:+ flag_line plain_getColor plain_boolFormatter newline "GUI: " false
      +:+ ("Network mode: " +:+ "custom" +:+ newline)
      +:+ flag_line plain_getColor plain_boolFormatter newline "Share timezone: " false
      +:+ flag_line plain_getColor plain_boolFormatter newline "Common resources: " false.
Proof.
  apply (network_mode_texts plain_getColor plain_boolFormatter newline
           (set_network_host false default_config)).
  reflexivity.
Defined.

(** ** Mounts of an inspected container *)

Lemma parseMount_returns (share : Share) (c : ContainerConfig) :
  result (parseMount share) c = Return tt.
Proof.
  unfold parseMount. unfold_M. simpl.
  repeat (case_match; simpl; try reflexivity).
Qed.

Lemma parseMounts_returns (l : list Share) (c : ContainerConfig) :
  result (for_each l parseMount) c = Return tt.
Proof.
  revert c. induction l as [|share l IH]; intros c; [reflexivity |].
  unfold result in *. simpl. unfold mbind, M_bind.
  pose proof (parseMount_returns share c) as Hr. unfold result in Hr.
  destruct (parseMount share c) as [r c1]. simpl in Hr. subst r. apply IH.
Qed.

Lemma parseMounts_singleton (share : Share) (c : ContainerConfig) :
  exec (parseMounts (Some [share])) c = exec (parseMount share) c.
Proof.
  unfold exec, parseMounts. simpl. unfold mbind, M_bind.
  pose proof (parseMount_returns share c) as Hr. unfold result in Hr.
  destruct (parseMount share c) as [r c1]. simpl in Hr. by subst r.
Qed.

Lemma parseMount_share_cwd (share : Share) (c : ContainerConfig) :
  (workspace_target share →
     share_cwd (exec (parseMount share) c) = Some (default "" (share_Source share))) ∧
  (¬ workspace_target share →
     share_cwd (exec (parseMount share) c) = share_cwd c).
Proof.
  unfold workspace_target, parseMount. unfold_M. simpl.
  destruct (contains "/etc/timezone" _), (contains "/opt/resources" _),
    (contains "/workspace" _); simpl; split; intros H; try reflexivity;
    try (destruct H as (? & ? & ?); congruence); try (exfalso; apply H; done).
Qed.

Lemma parseMounts_share_cwd (l : list Share) (c : ContainerConfig) :
  is_Some (share_cwd (exec (for_each l parseMount) c)) ↔
  is_Some (share_cwd c) ∨ ∃ share, share ∈ l ∧ workspace_target share.
Proof.
  revert c. induction l as [|share l IH]; intros c.
  - simpl. split; [by left | intros [H | (s & Hs & _)]; [done | by apply elem_of_nil in Hs]].
  - assert (exec (for_each (share :: l) parseMount) c
            = exec (for_each l parseMount) (exec (parseMount share) c)) as ->.
    { unfold exec. simpl. unfold mbind, M_bind.
      pose proof (parseMount_returns share c) as Hr. unfold result in Hr.
      destruct (parseMount share c) as [r c1]. simpl in Hr. by subst r. }
    rewrite IH. destruct (parseMount_share_cwd share c) as [Hws Hother].
    assert (Decision (workspace_target share)) as [Hw | Hw]
      by (unfold workspace_target; apply _).
    + rewrite (Hws Hw). split; [intros _ | intros _; left; by eexists].
      right. exists share. split; [apply list_elem_of_here | done].
    + rewrite (Hother Hw). split.
      * intros [H | (s & Hs & Hsw)]; [by left |].
        right. exists s. split; [by apply list_elem_of_further | done].
      * intros [H | (s & Hs & Hsw)]; [by left |].
        apply elem_of_cons in Hs as [-> | Hs]; [done |]. right. by exists s.
Qed.

(** ** What hydration leaves of the default flags *)

Lemma parseEnv_frame (env : string) (c : ContainerConfig) :
  exec (parseEnv env) c = set_envs (envs (exec (parseEnv env) c)) c.
Proof.
  unfold parseEnv. unfold_M. destruct c.
  repeat (case_match; simpl; try reflexivity).
Qed.

Lemma parseEnvs_frame (l : list string) (c : ContainerConfig) :
  exec (parseEnvs l) c = set_envs (envs (exec (parseEnvs l) c)) c.
Proof.
  unfold parseEnvs. revert c. induction l as [|env l IH]; intros c.
  - destruct c; reflexivity.
  - pose proof (parseEnv_frame env c) as Hhead. unfold exec in *. simpl.
    unfold mbind, M_bind. destruct (parseEnv env c) as [[[]|e] c1]; simpl in *.
    + rewrite IH. rewrite Hhead at 2. reflexivity.
    + exact Hhead.
Qed.

Lemma init_mount_state (attrs : ContainerAttrs) (c : ContainerConfig) :
  init (Some attrs) = Return c →
  ∃ c0, share_timezone c0 = false ∧ common_resources c0 = false ∧ share_cwd c0 = None ∧
    share_timezone c
      = share_timezone (exec (parseMounts (jget [] (attrs_Mounts attrs))) c0) ∧
    common_resources c
      = common_resources (exec (parseMounts (jget [] (attrs_Mounts attrs))) c0) ∧
    share_cwd c = share_cwd (exec (parseMounts (jget [] (attrs_Mounts attrs))) c0).
Proof.
  unfold init, parseContainerConfig. unfold mbind, M_bind, modify, get, mret, M_ret.
  set (env := default [] _).
  set (c_tty := set_tty _ default_config).
  pose proof (parseEnvs_frame env c_tty) as Henv. unfold exec in *.
  destruct (parseEnvs env c_tty) as [[[]|e] c1]; simpl in Henv; [| discriminate].
  set (c_pre := set_enable_gui false (set_interactive _ c1)).
  assert (share_cwd c_pre = None) as Hpre.
  { subst c_pre. simpl. rewrite Henv. reflexivity. }
  clearbody c_pre.
  destruct (existsb _ _).
  all: set (c0 := set_common_resources false _).
  all: intros Hinit; exists c0.
  all: split; [reflexivity |]; split; [reflexivity |]; split; [exact Hpre |].
  all: pose proof (parseMounts_returns (default [] (jget [] (attrs_Mounts attrs))) c0) as Hm.
  all: unfold result, parseMounts in *.
  all: destruct (for_each _ parseMount c0) as [r c3]; simpl in Hm; subst r; simpl.
  all: destruct (network_Networks _); [| discriminate].
  all: simpl in Hinit; injection Hinit as <-; done.
Qed.

(** C6. Each mount of an inspection is classified by its target in the
    order /etc/timezone, /opt/resources, /workspace, and at most one
    classification applies: a target naming /etc/timezone sets
    shareTimezone and leaves commonResources and sharedCwd as they were;
    failing that, one naming /opt/resources sets commonResources only;
    failing that, one naming /workspace sets sharedCwd to the mount's
    source only; any other target changes none of the three.  So a
    container whose one mount targets /etc/timezone hydrates to
    shareTimezone true, commonResources false and sharedCwd unset. *)
Theorem parseMount_classification (share : Share) (c : ContainerConfig) :
  let target := default "" (share_Destination share) in
  let c' := exec (parseMount share) c in
  result (parseMount share) c = Return tt ∧
  (contains "/etc/timezone" target = true →
     share_timezone c' = true ∧
     common_resources c' = common_resources c ∧ share_cwd c' = share_cwd c) ∧
  (contains "/etc/timezone" target = false →
   contains "/opt/resources" target = true →
     common_resources c' = true ∧
     share_timezone c' = share_timezone c ∧ share_cwd c' = share_cwd c) ∧
  (contains "/etc/timezone" target = false →
   contains "/opt/resources" target = false →
   contains "/workspace" target = true →
     share_cwd c' = Some (default "" (share_Source share)) ∧
     share_timezone c' = share_timezone c ∧ common_resources c' = common_resources c) ∧
  (contains "/etc/timezone" target = false →
   contains "/opt/resources" target = false →
   contains "/workspace" target = false →
     share_timezone c' = share_timezone c ∧
     common_resources c' = common_resources c ∧ share_cwd c' = share_cwd c) ∧
  (∀ attrs hydrated,
     attrs_Mounts attrs = Present [share] →
     contains "/etc/timezone" target = true →
     init (Some attrs) = Return hydrated →
     share_timezone hydrated = true ∧
     common_resources hydrated = false ∧ share_cwd hydrated = None).
Proof.
  intros target c'.
  assert (∀ c0, contains "/etc/timezone" target = true →
            share_timezone (exec (parseMount share) c0) = true ∧
            common_resources (exec (parseMount share) c0) = common_resources c0 ∧
            share_cwd (exec (parseMount share) c0) = share_cwd c0) as Htz.
  { intros c0 Ht. unfold parseMount. unfold_M. simpl. fold target. rewrite Ht. done. }
  split; [apply parseMount_returns |]. split; [apply Htz |].
  split; [| split; [| split]].
  - intros Ht Hr. subst c'. unfold parseMount. unfold_M. simpl. fold target.
    rewrite Ht, Hr. done.
  - intros Ht Hr Hw. subst c'. unfold parseMount. unfold_M. simpl. fold target.
    rewrite Ht, Hr, Hw. done.
  - intros Ht Hr Hw. subst c'. unfold parseMount. unfold_M. simpl. fold target.
    rewrite Ht, Hr, Hw. done.
  - intros attrs hydrated Hshares Ht Hinit.
    apply init_mount_state in Hinit as (c0 & Ht0 & Hr0 & Hc0 & -> & -> & ->).
    rewrite Hshares. simpl. rewrite parseMounts_singleton.
    destruct (Htz c0 Ht) as (Htz' & Hres & Hcwd). repeat split; congruence.
Qed.

Lemma parseMount_classification_witness :
  share_timezone
    (exec (parseMount (bind_share "/etc/timezone" "/etc/timezone")) default_config) = true ∧
  common_resources
    (exec (parseMount (bind_share "/etc/timezone" "/etc/timezone")) default_config) = false ∧
  share_cwd
    (exec (parseMount (bind_share "/etc/timezone" "/etc/timezone")) default_config) = None.
Proof.
  apply (parseMount_classification
           (bind_share "/etc/timezone" "/etc/timezone") default_config).
  reflexivity.
Defined.

(** ** Working directory *)

(** C7, as the code has it.  [getWorkingDir] answers "/workspace" exactly
    when sharedCwd is set and "/data" otherwise: "/data" on a fresh
    configuration, "/workspace" after [enableCwdShare], and, after a
    hydration, "/workspace" exactly when some mount's target names
    /workspace and neither /etc/timezone nor /opt/resources (a target that
    names one of these two is classified as such and leaves sharedCwd
    alone). *)
Theorem getWorkingDir_spec :
  (∀ c, getWorkingDir c = "/workspace" ↔ is_Some (share_cwd c)) ∧
  (∀ c, getWorkingDir c = "/data" ↔ share_cwd c = None) ∧
  getWorkingDir default_config = "/data" ∧
  (∀ h c, getWorkingDir (exec (enableCwdShare h) c) = "/workspace") ∧
  (∀ attrs shares c,
     attrs_Mounts attrs = Present shares →
     init (Some attrs) = Return c →
     (getWorkingDir c = "/workspace"
      ↔ ∃ share, share ∈ shares ∧ workspace_target share)).
Proof.
  assert (∀ c, getWorkingDir c = "/workspace" ↔ is_Some (share_cwd c)) as Hws.
  { intros c. unfold getWorkingDir. destruct (share_cwd c) as [p|]; simpl.
    - split; [by eexists | reflexivity].
    - split; [discriminate | by intros [? ?]]. }
  split; [exact Hws |]. split.
  { intros c. unfold getWorkingDir. destruct (share_cwd c) as [p|]; simpl; done. }
  split; [reflexivity |]. split.
  { intros h c. apply Hws. unfold_M. simpl. by eexists. }
  intros attrs shares c Hshares Hinit. rewrite Hws.
  apply init_mount_state in Hinit as (c0 & _ & _ & Hc0 & _ & _ & ->).
  rewrite Hshares. simpl. unfold parseMounts. simpl.
  rewrite parseMounts_share_cwd, Hc0. split.
  - intros [[? ?] | H]; [discriminate | exact H].
  - intros H. by right.
Qed.

Lemma getWorkingDir_spec_witness :
  getWorkingDir (exec (enableCwdShare linux_host) default_config) = "/workspace" ∧
  ∃ c, init (Some (bridge_container [] [bind_share "/home/user/project" "/workspace"]))
         = Return c ∧
       getWorkingDir c = "/workspace".
Proof.
  destruct getWorkingDir_spec as (_ & _ & _ & Hcwd & Hhydrated).
  split; [apply Hcwd |].
  eexists. split; [vm_compute; reflexivity |].
  apply (Hhydrated (bridge_container [] [bind_share "/home/user/project" "/workspace"])
           [bind_share "/home/user/project" "/workspace"]).
  - reflexivity.
  - vm_compute. reflexivity.
  - exists (bind_share "/home/user/project" "/workspace").
    split; [apply list_elem_of_here |]. repeat split; reflexivity.
Defined.

(** C7 fails as stated: the target "/opt/resources/workspace" contains
    "/workspace", yet hydrating a container with that mount leaves the
    working directory at "/data". *)
Lemma getWorkingDir_resources_workspace_mount :
  contains "/workspace" "/opt/resources/workspace" = true ∧
  ∃ c, init (Some (bridge_container []
                     [bind_share "/home/user/project" "/opt/resources/workspace"]))
         = Return c ∧
       getWorkingDir c = "/data".
Proof.
  split; [reflexivity |].
  eexists. split; [vm_compute; reflexivity | reflexivity].
Qed.

(** ** Splitting an environment entry *)

Lemma split_length (sep : ascii) (s : string) :
  length (split sep s) = S (count sep s).
Proof.
  induction s as [|a s IH]; simpl; [reflexivity |].
  destruct (Ascii.eqb a sep); simpl; [by rewrite IH |].
  destruct (split sep s) as [|piece rest]; simpl in *; [discriminate | exact IH].
Qed.

Lemma split_no_sep (sep : ascii) (s : string) :
  count sep s = 0 → split sep s = [s].
Proof.
  induction s as [|a s IH]; simpl; [reflexivity |].
  destruct (Ascii.eqb a sep); simpl; [discriminate |].
  intros Hc. by rewrite (IH Hc).
Qed.

Lemma split_one_sep (sep : ascii) (s : string) :
  count sep s = 1 →
  ∃ k v, split sep s = [k; v] ∧ s = k +:+ String sep v ∧
         count sep k = 0 ∧ count sep v = 0.
Proof.
  induction s as [|a s IH]; simpl; [discriminate |].
  destruct (Ascii.eqb a sep) eqn:Ha; simpl.
  - intros Hc. apply Ascii.eqb_eq in Ha as ->.
    exists "", s. rewrite split_no_sep by lia. repeat split; first [reflexivity | lia].
  - intros Hc. destruct (IH Hc) as (k & v & Hsplit & -> & Hk & Hv).
    exists (String a k), v. rewrite Hsplit. simpl. rewrite Ha. done.
Qed.

Lemma count_app (sep : ascii) (s1 s2 : string) :
  count sep (s1 +:+ s2) = count sep s1 + count sep s2.
Proof.
  induction s1 as [|a s1 IH]; [reflexivity |].
  change (String a s1 +:+ s2) with (String a (s1 +:+ s2)). simpl. rewrite IH. lia.
Qed.

(** A text holds at most one cut at a separator whose left part is free
    of the separator. *)
Lemma first_sep_unique (sep : ascii) (k k' v v' : string) :
  k +:+ String sep v = k' +:+ String sep v' →
  count sep k = 0 → count sep k' = 0 →
  k = k' ∧ v = v'.
Proof.
  revert k'. induction k as [|a k IH]; intros [|a' k']; simpl.
  - intros [= ->]. done.
  - intros [= <- _]. rewrite Ascii.eqb_refl. discriminate.
  - intros [= -> _]. rewrite Ascii.eqb_refl. discriminate.
  - change (String a k +:+ String sep v) with (String a (k +:+ String sep v)).
    change (String a' k' +:+ String sep v') with (String a' (k' +:+ String sep v')).
    intros [= -> Heq]. destruct (Ascii.eqb a' sep); simpl; [discriminate |].
    intros Hk Hk'. destruct (IH k' Heq Hk Hk') as [-> ->]. done.
Qed.

(** What the loop body does with an entry: it stores the pair when the
    unquoted entry holds exactly one equals sign, and raises otherwise. *)
Lemma parseEnv_spec (env : string) (c : ContainerConfig) :
  (count equals (unquote env) = 1 →
     ∃ k v, unquote env = k +:+ "=" +:+ v ∧ env_key env = k ∧ count equals k = 0 ∧
            parseEnv env c = (Return tt, set_envs (<[k := v]> (envs c)) c)) ∧
  (count equals (unquote env) ≠ 1 → parseEnv env c = (Raise ValueError, c)).
Proof.
  unfold parseEnv, env_key. split.
  - intros Hc. destruct (split_one_sep equals _ Hc) as (k & v & Hsplit & Heq & Hk & _).
    exists k, v. rewrite Hsplit. done.
  - intros Hc. pose proof (split_length equals (unquote env)) as Hlen.
    destruct (split equals (unquote env)) as [|k [|v [|x rest]]]; simpl in Hlen;
      try reflexivity.
    exfalso. apply Hc. lia.
Qed.

Lemma parseEnvs_lookup (l : list string) (c : ContainerConfig) :
  Forall (λ env, count equals (unquote env) = 1) l →
  NoDup (env_key <$> l) →
  (∀ env, env ∈ l → envs c !! env_key env = None) →
  ∃ c', parseEnvs l c = (Return tt, c') ∧
    ∀ k v, envs c' !! k = Some v ↔
           envs c !! k = Some v ∨ (k +:+ "=" +:+ v) ∈ unquote <$> l.
Proof.
  unfold parseEnvs. revert c. induction l as [|env l IH]; intros c Hvalid Hkeys Hfresh.
  - exists c. split; [reflexivity |]. intros k v. simpl. rewrite elem_of_nil. tauto.
  - apply Forall_cons in Hvalid as [Hc Hvalid].
    rewrite fmap_cons in Hkeys. apply NoDup_cons in Hkeys as [Hhead Hkeys].
    destruct (proj1 (parseEnv_spec env c) Hc) as (k0 & v0 & Heq & Hkey & Hk0 & Hrun).
    destruct (IH (set_envs (<[k0 := v0]> (envs c)) c) Hvalid Hkeys) as (c' & Hrest & Hlook).
    { intros env' Hin. simpl. rewrite lookup_insert_ne.
      - apply Hfresh. by apply list_elem_of_further.
      - intros Hsame. apply Hhead. rewrite Hkey, Hsame.
        apply list_elem_of_fmap. by exists env'. }
    exists c'. split.
    { simpl. unfold mbind, M_bind. rewrite Hrun. exact Hrest. }
    intros k v. rewrite Hlook, fmap_cons, elem_of_cons. simpl.
    assert (envs c !! k0 = None) as Hnone.
    { rewrite <- Hkey. apply Hfresh, list_elem_of_here. }
    split.
    + intros [Hins | Hin]; [| by right; right].
      destruct (decide (k0 = k)) as [-> | Hne].
      * rewrite lookup_insert_eq in Hins. injection Hins as ->.
        right. left. by rewrite Heq.
      * rewrite lookup_insert_ne in Hins by done. by left.
    + intros [Hold | [Hhere | Hin]]; [| | by right].
      * left. rewrite lookup_insert_ne; [done |]. intros ->. congruence.
      * left. assert (count equals k = 0) as Hk.
        { pose proof Hc as Hc'. rewrite <- Hhere, count_app in Hc'.
          simpl in Hc'. lia. }
        rewrite Heq in Hhere.
        destruct (first_sep_unique equals k k0 v v0 Hhere Hk Hk0) as [-> ->].
        apply lookup_insert_eq.
Qed.

(** With repeated keys the last entry for a key is the one kept. *)
Lemma parseEnvs_last_wins (l : list string) (c : ContainerConfig) :
  Forall (λ env, count equals (unquote env) = 1) l →
  ∃ c', parseEnvs l c = (Return tt, c') ∧
    ∀ k v, envs c' !! k = Some v ↔
           (envs c !! k = Some v ∧ k ∉ env_key <$> l) ∨
           (∃ l1 env l2, l = l1 ++ env :: l2 ∧ unquote env = k +:+ "=" +:+ v ∧
                         k ∉ env_key <$> l2).
Proof.
  unfold parseEnvs. revert c. induction l as [|env l IH]; intros c Hvalid.
  - exists c. split; [reflexivity |]. intros k v. simpl. split.
    + intros H. left. split; [done | apply not_elem_of_nil].
    + intros [[H _] | (l1 & e & l2 & Hl & _)]; [done |]. by destruct l1.
  - apply Forall_cons in Hvalid as [Hc Hvalid].
    destruct (proj1 (parseEnv_spec env c) Hc) as (k0 & v0 & Heq & Hkey & Hk0 & Hrun).
    destruct (IH (set_envs (<[k0 := v0]> (envs c)) c) Hvalid) as (c' & Hrest & Hlook).
    exists c'. split.
    { simpl. unfold mbind, M_bind. rewrite Hrun. exact Hrest. }
    intros k v. rewrite Hlook, fmap_cons, not_elem_of_cons, Hkey. simpl. split.
    + intros [[Hins Hnot] | (l1 & e & l2 & -> & He & Hlast)].
      * destruct (decide (k0 = k)) as [-> | Hne].
        -- rewrite lookup_insert_eq in Hins. injection Hins as ->.
           right. exists [], env, l. done.
        -- rewrite lookup_insert_ne in Hins by done. left. done.
      * right. exists (env :: l1), e, l2. done.
    + intros [(Hold & Hne & Hnot) | (l1 & e & l2 & Hl & He & Hlast)].
      * left. by rewrite lookup_insert_ne.
      * destruct l1 as [|e1 l1]; simpl in Hl; injection Hl as <- ->.
        -- left. assert (count equals k = 0) as Hk.
           { pose proof Hc as Hc'. rewrite He, count_app in Hc'. simpl in Hc'. lia. }
           rewrite Heq in He. symmetry in He.
           destruct (first_sep_unique equals k k0 v v0 He Hk Hk0) as [-> ->].
           split; [apply lookup_insert_eq | done].
        -- right. exists l1, e, l2. done.
Qed.

Lemma elem_of_serialize_envs (m : gmap string string) (s : string) :
  s ∈ serialize_envs m ↔ ∃ k v, s = k +:+ "=" +:+ v ∧ m !! k = Some v.
Proof.
  unfold serialize_envs. rewrite list_elem_of_fmap. split.
  - intros ([k v] & -> & Hin). apply elem_of_map_to_list in Hin. by exists k, v.
  - intros (k & v & -> & Hin). exists (k, v). split; [done |].
    by apply elem_of_map_to_list.
Qed.

(** The round trip measured on the entries as the code unquotes them.
    For a list whose entries, once unquoted, each
    hold exactly one equals sign, parsing into an empty mapping returns
    normally, and the mapping written back as "key=value" is, as a set, the
    unquoted entries that no later entry with the same key follows; when
    the keys are pairwise distinct it is exactly the set of the unquoted
    entries of the input, and the mapping binds [k] to [v] exactly when
    "k=v" is one of them. *)
Lemma parseEnvs_unquoted_roundtrip (l : list string) (c : ContainerConfig) :
  envs c = ∅ →
  Forall (λ env, count equals (unquote env) = 1) l →
  ∃ c', parseEnvs l c = (Return tt, c') ∧
    (∀ s, s ∈ serialize_envs (envs c') ↔
          ∃ l1 env l2, l = l1 ++ env :: l2 ∧ unquote env = s ∧
                       env_key env ∉ env_key <$> l2) ∧
    (NoDup (env_key <$> l) →
       (∀ s, s ∈ serialize_envs (envs c') ↔ s ∈ unquote <$> l) ∧
       (∀ k v, envs c' !! k = Some v ↔ (k +:+ "=" +:+ v) ∈ unquote <$> l)).
Proof.
  intros Hempty Hvalid.
  destruct (parseEnvs_last_wins l c Hvalid) as (c' & Hrun & Hlast).
  exists c'. split; [exact Hrun |].
  assert (∀ env k v, env ∈ l → unquote env = k +:+ "=" +:+ v → env_key env = k) as Hkeys.
  { intros env k v Hin He. rewrite Forall_forall in Hvalid.
    pose proof (Hvalid env Hin) as Hc.
    destruct (proj1 (parseEnv_spec env c) Hc) as (k0 & v0 & Heq & Hkey & Hk0 & _).
    assert (count equals k = 0) as Hk.
    { rewrite He, count_app in Hc. simpl in Hc. lia. }
    rewrite Heq in He. symmetry in He.
    by destruct (first_sep_unique equals k k0 v v0 He Hk Hk0) as [-> _]. }
  split.
  - intros s. rewrite elem_of_serialize_envs. split.
    + intros (k & v & -> & Hin). apply Hlast in Hin as [[Hin _] | (l1 & e & l2 & -> & He & Hnot)].
      { by rewrite Hempty, lookup_empty in Hin. }
      exists l1, e, l2. split; [done |]. split; [done |].
      rewrite (Hkeys e k v); [done | | done].
      apply elem_of_app. right. apply list_elem_of_here.
    + intros (l1 & e & l2 & -> & <- & Hnot).
      assert (e ∈ l1 ++ e :: l2) as Hin
        by (apply elem_of_app; right; apply list_elem_of_here).
      rewrite Forall_forall in Hvalid. pose proof (Hvalid e Hin) as Hc.
      destruct (proj1 (parseEnv_spec e c) Hc) as (k0 & v0 & Heq & Hkey & _ & _).
      exists k0, v0. split; [done |]. apply Hlast. right.
      exists l1, e, l2. split; [done |]. split; [done |]. by rewrite <- Hkey.
  - intros Hnodup.
    destruct (parseEnvs_lookup l c Hvalid Hnodup) as (c'' & Hrun' & Hlook).
    { intros env _. by rewrite Hempty, lookup_empty. }
    rewrite Hrun in Hrun'. injection Hrun' as <-.
    assert (∀ k v, envs c' !! k = Some v ↔ (k +:+ "=" +:+ v) ∈ unquote <$> l) as Hpairs.
    { intros k v. rewrite Hlook, Hempty, lookup_empty. split; [| by right].
      intros [? | ?]; [discriminate | done]. }
    split; [| exact Hpairs].
    intros s. rewrite elem_of_serialize_envs. split.
    + intros (k & v & -> & Hin). by apply Hpairs.
    + intros Hin. pose proof Hin as Hin'.
      apply list_elem_of_fmap in Hin' as (e & -> & He).
      rewrite Forall_forall in Hvalid. pose proof (Hvalid e He) as Hc.
      destruct (proj1 (parseEnv_spec e c) Hc) as (k0 & v0 & Heq & _ & _ & _).
      exists k0, v0. split; [done |]. apply Hpairs. by rewrite <- Heq.
Qed.

(** ** Quotes around an entry *)

Lemma last_char_snoc (s : string) (q : ascii) :
  last_char s = Some q → s = drop_last s +:+ String q "".
Proof.
  induction s as [|a t IH]; [discriminate |].
  simpl. destruct t as [|b t']; [by intros [= ->] |].
  intros Hlast. change (String a (String b t') = String a (drop_last (String b t') +:+ String q "")).
  f_equal. by apply IH.
Qed.

Lemma last_char_app_snoc (s : string) (q : ascii) :
  last_char (s +:+ String q "") = Some q.
Proof.
  induction s as [|a t IH]; [reflexivity |].
  change (String a t +:+ String q "") with (String a (t +:+ String q "")).
  simpl. rewrite IH. by destruct t.
Qed.

Lemma lstrip_id (chars : list ascii) (s : string) :
  from_option (λ a, in_chars a chars) false (first_char s) = false →
  lstrip chars s = s.
Proof. destruct s as [|a t]; simpl; [done |]. by intros ->. Qed.

Lemma rstrip_id (chars : list ascii) (s : string) :
  from_option (λ a, in_chars a chars) false (last_char s) = false →
  rstrip chars s = s.
Proof.
  induction s as [|a t IH]; [done |].
  simpl. destruct t as [|b t'].
  - simpl. by intros ->.
  - intros Hlast. by rewrite (IH Hlast).
Qed.

Lemma rstrip_snoc (chars : list ascii) (s : string) (q : ascii) :
  in_chars q chars = true →
  rstrip chars (s +:+ String q "") = rstrip chars s.
Proof.
  intros Hq. induction s as [|a t IH].
  - simpl. by rewrite Hq.
  - change (String a t +:+ String q "") with (String a (t +:+ String q "")).
    simpl. by rewrite IH.
Qed.

Lemma strip_id (chars : list ascii) (s : string) :
  from_option (λ a, in_chars a chars) false (first_char s) = false →
  from_option (λ a, in_chars a chars) false (last_char s) = false →
  strip chars s = s.
Proof. intros Hfirst Hlast. unfold strip. by rewrite lstrip_id, rstrip_id. Qed.

(** An entry inside a pair of the stripped character, itself free of it
    at both ends, is what stripping leaves. *)
Lemma strip_wrapped (chars : list ascii) (q : ascii) (body : string) :
  in_chars q chars = true →
  from_option (λ a, in_chars a chars) false (first_char body) = false →
  from_option (λ a, in_chars a chars) false (last_char body) = false →
  strip chars (String q (body +:+ String q "")) = body.
Proof.
  intros Hq Hfirst Hlast. unfold strip. simpl. rewrite Hq.
  destruct body as [|a t].
  - simpl. by rewrite Hq.
  - change (String a t +:+ String q "") with (String a (t +:+ String q "")).
    simpl in Hfirst. simpl lstrip. rewrite Hfirst.
    change (String a (t +:+ String q "")) with (String a t +:+ String q "").
    rewrite rstrip_snoc by done. by apply rstrip_id.
Qed.

Lemma is_quote_cases (a : ascii) :
  is_quote a = in_chars a [squote] || in_chars a [dquote].
Proof. unfold is_quote, in_chars. simpl. by rewrite !orb_false_r. Qed.

(** On an entry that the specification reads as a text with no quote
    character at either end, the code's stripping reads the same text. *)
Lemma unquote_spec_unwrap (env : string) :
  clean_ends (spec_unwrap env) = true → unquote env = spec_unwrap env.
Proof.
  unfold clean_ends. rewrite andb_true_iff, !negb_true_iff.
  intros [Hfirst Hlast].
  assert (∀ chars, (∀ a, in_chars a chars = true → is_quote a = true) →
            from_option (λ a, in_chars a chars) false (first_char (spec_unwrap env)) = false ∧
            from_option (λ a, in_chars a chars) false (last_char (spec_unwrap env)) = false)
    as Hclean.
  { intros chars Hsub. split.
    - destruct (first_char (spec_unwrap env)) as [a|]; [simpl in * | done].
      destruct (in_chars a chars) eqn:Ha; [| done]. by rewrite (Hsub a Ha) in Hfirst.
    - destruct (last_char (spec_unwrap env)) as [a|]; [simpl in * | done].
      destruct (in_chars a chars) eqn:Ha; [| done]. by rewrite (Hsub a Ha) in Hlast. }
  assert (∀ a, in_chars a [squote] = true → is_quote a = true) as Hs.
  { intros a Ha. by rewrite is_quote_cases, Ha. }
  assert (∀ a, in_chars a [dquote] = true → is_quote a = true) as Hd.
  { intros a Ha. rewrite is_quote_cases, Ha. apply orb_true_r. }
  destruct (Hclean [squote] Hs) as [Hs1 Hs2].
  destruct (Hclean [dquote] Hd) as [Hd1 Hd2].
  clear Hclean Hfirst Hlast. unfold unquote.
  destruct env as [|q t]; [reflexivity |].
  unfold spec_unwrap in *.
  destruct (is_quote q && bool_decide (last_char t = Some q)) eqn:Hwrap.
  - apply andb_true_iff in Hwrap as [Hq Hend]. apply bool_decide_eq_true in Hend.
    rewrite (last_char_snoc t q Hend) at 1.
    rewrite is_quote_cases in Hq. apply orb_true_iff in Hq as [Hq | Hq].
    + rewrite (strip_wrapped [squote] q (drop_last t) Hq Hs1 Hs2).
      by apply strip_id.
    + assert (in_chars q [squote] = false) as Hnot.
      { unfold in_chars in *. simpl in *. rewrite orb_false_r in *.
        apply Ascii.eqb_eq in Hq as ->. reflexivity. }
      rewrite (strip_id [squote]).
      * by apply strip_wrapped.
      * simpl. exact Hnot.
      * change (String q (drop_last t +:+ String q ""))
          with (String q (drop_last t) +:+ String q "").
        rewrite last_char_app_snoc. simpl. exact Hnot.
  - rewrite (strip_id [squote]) by done. by apply strip_id.
Qed.

Lemma spec_reading_agrees (l : list string) :
  Forall (λ env, count equals (spec_unwrap env) = 1 ∧
                 clean_ends (spec_unwrap env) = true) l →
  Forall (λ env, count equals (unquote env) = 1) l ∧
  unquote <$> l = spec_unwrap <$> l ∧
  env_key <$> l = spec_key <$> l.
Proof.
  intros Hvalid.
  assert (Forall (λ env, unquote env = spec_unwrap env) l) as Hsame.
  { eapply Forall_impl; [exact Hvalid |]. intros env [_ Hclean].
    by apply unquote_spec_unwrap. }
  split; [| split].
  - rewrite Forall_forall in *. intros env Hin.
    rewrite (Hsame env Hin). by apply Hvalid.
  - by apply Forall_fmap_ext.
  - apply Forall_fmap_ext. eapply Forall_impl; [exact Hsame |].
    intros env Heq. unfold env_key, spec_key. by rewrite Heq.
Qed.

(** C8, as the code has it.  Take a list whose entries, read as the
    specification reads them (without a pair of matching quotes around the
    whole entry), each hold exactly one equals sign and neither begin nor
    end with a quote character.  Parsing it into an empty mapping returns
    normally, and the mapping written back as "key=value" is, as a set, the
    entries so read that no later entry with the same key follows.  When
    the keys are pairwise distinct it is exactly the set of the entries of
    the input so read, and the mapping binds [k] to [v] exactly when
    "k=v" is one of them. *)
Theorem parseEnvs_roundtrip (l : list string) (c : ContainerConfig) :
  envs c = ∅ →
  Forall (λ env, count equals (spec_unwrap env) = 1 ∧
                 clean_ends (spec_unwrap env) = true) l →
  ∃ c', parseEnvs l c = (Return tt, c') ∧
    (∀ s, s ∈ serialize_envs (envs c') ↔
          ∃ l1 env l2, l = l1 ++ env :: l2 ∧ spec_unwrap env = s ∧
                       spec_key env ∉ spec_key <$> l2) ∧
    (NoDup (spec_key <$> l) →
       (∀ s, s ∈ serialize_envs (envs c') ↔ s ∈ spec_unwrap <$> l) ∧
       (∀ k v, envs c' !! k = Some v ↔ (k +:+ "=" +:+ v) ∈ spec_unwrap <$> l)).
Proof.
  intros Hempty Hspec.
  destruct (spec_reading_agrees l Hspec) as (Hvalid & Hunquote & Hkeys).
  destruct (parseEnvs_unquoted_roundtrip l c Hempty Hvalid) as (c' & Hrun & Hlast & Hdistinct).
  exists c'. split; [exact Hrun |]. split.
  - intros s. rewrite Hlast. split.
    + intros (l1 & env & l2 & -> & Hs & Hnot). exists l1, env, l2.
      apply Forall_app in Hspec as [_ Htail].
      apply Forall_cons in Htail as [Henv Hl2].
      destruct (spec_reading_agrees [env] (Forall_cons_2 _ _ _ Henv (Forall_nil_2 _)))
        as (_ & [= Hu] & [= Hk]).
      destruct (spec_reading_agrees l2 Hl2) as (_ & _ & Hk2).
      by rewrite <- Hu, <- Hk, <- Hk2.
    + intros (l1 & env & l2 & -> & Hs & Hnot). exists l1, env, l2.
      apply Forall_app in Hspec as [_ Htail].
      apply Forall_cons in Htail as [Henv Hl2].
      destruct (spec_reading_agrees [env] (Forall_cons_2 _ _ _ Henv (Forall_nil_2 _)))
        as (_ & [= Hu] & [= Hk]).
      destruct (spec_reading_agrees l2 Hl2) as (_ & _ & Hk2).
      by rewrite Hu, Hk, Hk2.
  - rewrite <- Hkeys, <- Hunquote. exact Hdistinct.
Qed.

Lemma parseEnvs_roundtrip_witness :
  ∃ c', parseEnvs ["PATH=/usr/bin"; "'LANG=C'"] default_config = (Return tt, c') ∧
        ∀ s, s ∈ serialize_envs (envs c') ↔ s ∈ ["PATH=/usr/bin"; "LANG=C"].
Proof.
  destruct (parseEnvs_roundtrip ["PATH=/usr/bin"; "'LANG=C'"] default_config eq_refl)
    as (c' & Hrun & _ & Hdistinct).
  - repeat constructor.
  - exists c'. split; [exact Hrun |].
    apply Hdistinct. apply (bool_decide_unpack _). vm_compute. exact I.
Defined.

(** C8 fails as stated, in two ways.  With a repeated key both entries are
    well formed, yet the pair of the first one is not among the pairs
    written back.  And the entry A=b' (no quotes around the whole entry,
    one equals sign) has the value b' but comes back as A=b: the code
    strips a quote character at either end, matched or not. *)
Lemma parseEnvs_pairs_not_reproduced :
  (Forall (λ env, count equals (spec_unwrap env) = 1) ["A=1"; "A=2"] ∧
   ∃ c', parseEnvs ["A=1"; "A=2"] default_config = (Return tt, c') ∧
         serialize_envs (envs c') = ["A=2"] ∧
         "A=1" ∉ serialize_envs (envs c')) ∧
  (spec_unwrap "A=b'" = "A=b'" ∧ count equals (spec_unwrap "A=b'") = 1 ∧
   ∃ c', parseEnvs ["A=b'"] default_config = (Return tt, c') ∧
         serialize_envs (envs c') = ["A=b"] ∧
         "A=b'" ∉ serialize_envs (envs c')).
Proof.
  split.
  - split; [repeat constructor |].
    eexists. split; [vm_compute; reflexivity |].
    split; [vm_compute; reflexivity |].
    apply (bool_decide_unpack _). vm_compute. exact I.
  - split; [reflexivity |]. split; [reflexivity |].
    eexists. split; [vm_compute; reflexivity |].
    split; [vm_compute; reflexivity |].
    apply (bool_decide_unpack _). vm_compute. exact I.
Qed.

(** C2: the code at an entry whose value holds an equals sign.  The entry
    splits into three pieces, the unpacking into key and value raises
    ValueError, and a hydration from a container with that entry fails;
    an entry with one equals sign is stored and one with none raises. *)
Theorem parseEnv_second_equals_raises :
  split equals (unquote "KEY=a=b") = ["KEY"; "a"; "b"] ∧
  parseEnv "KEY=a=b" default_config = (Raise ValueError, default_config) ∧
  init (Some (bridge_container ["KEY=a=b"] [])) = Raise ValueError ∧
  envs (exec (parseEnv "KEY=a") default_config) !! "KEY" = Some "a" ∧
  parseEnv "KEY" default_config = (Raise ValueError, default_config).
Proof.
  repeat split; vm_compute; reflexivity.
Qed.

(** * Further properties *)

(** ** The guarded toggles *)

(** X1. [enableSharedTimezone] on a host that is not Windows: a second
    call (on any host) changes nothing, and after the call the flag is set;
    when the flag was not set before, exactly the two read-only bind
    mounts of /etc/timezone and /etc/localtime are appended, in this order,
    and no other field changes. *)
Theorem enableSharedTimezone_idempotent (h h' : Host) (c : ContainerConfig) :
  on_windows h = false →
  (enableSharedTimezone h ;; enableSharedTimezone h') c = enableSharedTimezone h c ∧
  share_timezone (exec (enableSharedTimezone h) c) = true ∧
  (share_timezone c = false →
     exec (enableSharedTimezone h) c
       = set_mounts (mounts c ++ [bind_mount "/etc/timezone" true;
                                  bind_mount "/etc/localtime" true])
           (set_share_timezone true c)).
Proof.
  intros Hsup. unfold enableSharedTimezone, addVolume, exec.
  unfold mbind, M_bind, mret, M_ret, get, modify. rewrite Hsup.
  destruct (share_timezone c) eqn:Htz; simpl.
  - destruct (on_windows h'); simpl; rewrite ?Htz; simpl; repeat split; done.
  - destruct (on_windows h'); simpl; repeat split; try done.
    all: intros _; by rewrite <- app_assoc.
Qed.

Lemma enableSharedTimezone_idempotent_witness :
  (enableSharedTimezone linux_host ;; enableSharedTimezone linux_host) default_config
    = enableSharedTimezone linux_host default_config.
Proof.
  apply (enableSharedTimezone_idempotent linux_host linux_host default_config).
  reflexivity.
Defined.

(** ** Configurations built by method calls *)

Ltac unfold_call :=
  unfold exec, run_call, enableGUI, enableSharedTimezone, enableCommonVolume,
    enableCwdShare, addVolume, addDevice, addEnv, addPort,
    mbind, M_bind, mret, M_ret, get, modify, raise.

Lemma run_call_network (k : call) (c : ContainerConfig) :
  network_host (exec (run_call k) c) = network_host c ∧
  (network_host c = true → ports (exec (run_call k) c) = ports c).
Proof.
  destruct k; unfold_call; simpl;
    repeat (match goal with
            | |- context [if ?b then _ else _] => destruct b eqn:?
            end; simpl);
    split; congruence.
Qed.

Lemma run_call_grows (k : call) (c : ContainerConfig) :
  (∀ m, m ∈ mounts c → m ∈ mounts (exec (run_call k) c)) ∧
  (∀ key, is_Some (envs c !! key) → is_Some (envs (exec (run_call k) c) !! key)) ∧
  (enable_gui (exec (run_call k) c) = true →
     enable_gui c = true ∨
     (bind_mount "/tmp/.X11-unix" false ∈ mounts (exec (run_call k) c) ∧
      is_Some (envs (exec (run_call k) c) !! "QT_X11_NO_MITSHM") ∧
      is_Some (envs (exec (run_call k) c) !! "DISPLAY"))) ∧
  (share_timezone (exec (run_call k) c) = true →
     share_timezone c = true ∨
     (bind_mount "/etc/timezone" true ∈ mounts (exec (run_call k) c) ∧
      bind_mount "/etc/localtime" true ∈ mounts (exec (run_call k) c))).
Proof.
  destruct k; unfold_call; simpl;
    repeat (match goal with
            | |- context [if ?b then _ else _] => destruct b eqn:?
            end; simpl);
    (split; [| split; [| split]]); try (intros; by left); try done.
  all: try (intros ? ?; rewrite ?elem_of_app; tauto).
  all: try (intros ? ?; rewrite ?lookup_insert_is_Some'; tauto).
  all: intros _; right; unfold bind_mount.
  - rewrite elem_of_app, !lookup_insert_is_Some', list_elem_of_singleton. tauto.
  - rewrite !elem_of_app, !list_elem_of_singleton. tauto.
Qed.

(** X2. No method call changes the network mode, and while the
    configuration shares the host's network no call changes the port table:
    a configuration built from the default one by method calls alone is
    still in host mode with no port mapping. *)
Theorem after_calls_network (calls : list call) (c : ContainerConfig) :
  network_host (after_calls calls c) = network_host c ∧
  (network_host c = true → ports (after_calls calls c) = ports c) ∧
  network_host (after_calls calls default_config) = true ∧
  ports (after_calls calls default_config) = ∅.
Proof.
  assert (∀ c0, network_host (after_calls calls c0) = network_host c0 ∧
                (network_host c0 = true → ports (after_calls calls c0) = ports c0)) as H.
  { unfold after_calls. induction calls as [|k calls IH]; intros c0; simpl; [done |].
    destruct (run_call_network k c0) as [Hnet Hports].
    destruct (IH (exec (run_call k) c0)) as [IHnet IHports].
    split; [congruence |]. intros Hhost.
    rewrite IHports by congruence. by apply Hports. }
  split; [apply H |]. split; [apply H |].
  destruct (H default_config) as [Hnet Hports]. split; [exact Hnet | by apply Hports].
Qed.

(** X3. Every method call keeps what the GUI and timezone flags stand for:
    when the GUI flag is set, the X11 socket mount and the two variables
    QT_X11_NO_MITSHM and DISPLAY are present, and when the timezone flag is
    set, the two read-only mounts are present.  Both hold of every
    configuration built from the default one by method calls. *)
Theorem after_calls_wired (calls : list call) (c : ContainerConfig) :
  gui_wired c → timezone_wired c →
  gui_wired (after_calls calls c) ∧ timezone_wired (after_calls calls c).
Proof.
  unfold after_calls. revert c. induction calls as [|k calls IH]; intros c Hgui Htz; simpl.
  - done.
  - destruct (run_call_grows k c) as (Hmounts & Henvs & Hg & Ht).
    apply IH.
    + intros Hflag. destruct (Hg Hflag) as [Hold | Hnew]; [| exact Hnew].
      destruct (Hgui Hold) as (Hm & Hq & Hd). auto.
    + intros Hflag. destruct (Ht Hflag) as [Hold | Hnew]; [| exact Hnew].
      destruct (Htz Hold) as (Hm1 & Hm2). auto.
Qed.

Lemma after_calls_wired_witness :
  gui_wired (after_calls [CallEnableGUI linux_host; CallAddEnv "DISPLAY" ":1";
                          CallEnableSharedTimezone linux_host] default_config) ∧
  timezone_wired (after_calls [CallEnableGUI linux_host; CallAddEnv "DISPLAY" ":1";
                               CallEnableSharedTimezone linux_host] default_config).
Proof.
  apply (after_calls_wired _ default_config).
  - intros Hflag. discriminate Hflag.
  - intros Hflag. discriminate Hflag.
Defined.

(** ** Text of the mounts and of the devices *)

Lemma string_app_empty_r (s : string) : s +:+ "" = s.
Proof. induction s as [|a s IH]; [reflexivity | exact (f_equal (String a) IH)]. Qed.

(** A text built by appending to an accumulator is the accumulator
    followed by the text built from nothing. *)
Lemma fold_text_acc {A : Type} (step : A → option string) (l : list A) (acc : string) :
  fold_left (λ result x, match step x with
                         | Some line => result +:+ line
                         | None => result
                         end) l acc
  = acc +:+ fold_left (λ result x, match step x with
                                   | Some line => result +:+ line
                                   | None => result
                                   end) l "".
Proof.
  revert acc. induction l as [|x l IH]; intros acc; simpl.
  - by rewrite string_app_empty_r.
  - destruct (step x) as [line|]; [| apply IH].
    rewrite (IH (acc +:+ line)), (IH ("" +:+ line)).
    change ("" +:+ line) with line. by rewrite string_app_assoc.
Qed.

Lemma getTextMounts_app (linesep : string) (verbose : bool)
    (c : ContainerConfig) (l : list Mount) :
  getTextMounts linesep verbose (set_mounts (mounts c ++ l) c)
  = getTextMounts linesep verbose c +:+ getTextMounts linesep verbose (set_mounts l c).
Proof.
  unfold getTextMounts. simpl. rewrite fold_left_app.
  set (step := λ mount : Mount,
         if negb verbose && bool_decide (mount_target mount ∈ technical_targets)
         then None else Some (mount_line linesep mount)).
  assert (∀ l0 acc,
            fold_left (λ result mount,
               if negb verbose && bool_decide (mount_target mount ∈ technical_targets)
               then result else result +:+ mount_line linesep mount) l0 acc
            = fold_left (λ result x, match step x with
                                     | Some line => result +:+ line
                                     | None => result
                                     end) l0 acc) as Hstep.
  { induction l0 as [|m l0 IH]; intros acc; simpl; [done |].
    rewrite IH. unfold step. by destruct (negb verbose && _). }
  rewrite !Hstep. apply fold_text_acc.
Qed.

Lemma getTextDevices_app (linesep : string) (verbose : bool)
    (c : ContainerConfig) (l : list string) :
  getTextDevices linesep verbose (set_devices (devices c ++ l) c)
  = getTextDevices linesep verbose c +:+ getTextDevices linesep verbose (set_devices l c).
Proof.
  unfold getTextDevices. simpl. rewrite fold_left_app.
  set (step := λ device : string,
         Some (if verbose then device +:+ linesep
               else String.concat ":right_arrow:" (take 2 (split ":"%char device))
                    +:+ linesep)).
  assert (∀ l0 acc,
            fold_left (λ result device,
               if verbose then result +:+ (device +:+ linesep)
               else result +:+ (String.concat ":right_arrow:"
                                  (take 2 (split ":"%char device)) +:+ linesep)) l0 acc
            = fold_left (λ result x, match step x with
                                     | Some line => result +:+ line
                                     | None => result
                                     end) l0 acc) as Hstep.
  { induction l0 as [|d l0 IH]; intros acc; simpl; [done |].
    rewrite IH. by destruct verbose. }
  rewrite !Hstep. apply fold_text_acc.
Qed.

Lemma getTextMounts_single (linesep : string) (verbose : bool)
    (c : ContainerConfig) (m : Mount) :
  getTextMounts linesep verbose (set_mounts [m] c)
  = if negb verbose && bool_decide (mount_target m ∈ technical_targets)
    then "" else mount_line linesep m.
Proof. unfold getTextMounts. simpl. by destruct (negb verbose && _). Qed.

(** X4. The text of the mounts that is not verbose is the verbose text of
    the mounts whose target is neither /tmp/.X11-unix nor /opt/resources;
    so the two texts are the same when no mount has such a target. *)
Theorem getTextMounts_hides_technical (linesep : string) (c : ContainerConfig) :
  getTextMounts linesep false c
    = getTextMounts linesep true
        (set_mounts (filter (λ m, mount_target m ∉ technical_targets) (mounts c)) c) ∧
  ((∀ m, m ∈ mounts c → mount_target m ∉ technical_targets) →
     getTextMounts linesep false c = getTextMounts linesep true c).
Proof.
  assert (∀ l acc,
    fold_left (λ result mount,
       if negb false && bool_decide (mount_target mount ∈ technical_targets)
       then result else result +:+ mount_line linesep mount) l acc
    = fold_left (λ result mount,
       if negb true && bool_decide (mount_target mount ∈ technical_targets)
       then result else result +:+ mount_line linesep mount)
        (filter (λ m, mount_target m ∉ technical_targets) l) acc) as Hfilter.
  { induction l as [|m l IH]; intros acc; [done |].
    simpl. destruct (decide (mount_target m ∈ technical_targets)) as [Hin | Hout].
    - rewrite bool_decide_eq_true_2 by done. rewrite filter_cons_False by tauto. apply IH.
    - rewrite bool_decide_eq_false_2 by done. rewrite filter_cons_True by done. apply IH. }
  split; [apply Hfilter |].
  intros Hnone. unfold getTextMounts at 1. rewrite Hfilter.
  assert (filter (λ m, mount_target m ∉ technical_targets) (mounts c) = mounts c) as ->; [| done].
  clear Hfilter. induction (mounts c) as [|m l IH]; [done |].
  rewrite filter_cons_True by (apply Hnone, list_elem_of_here).
  f_equal. apply IH. intros m' Hm'. by apply Hnone, list_elem_of_further.
Qed.

Lemma getTextMounts_hides_technical_witness :
  getTextMounts newline false (exec (enableCwdShare linux_host) default_config)
    = getTextMounts newline true (exec (enableCwdShare linux_host) default_config).
Proof.
  apply (getTextMounts_hides_technical newline
           (exec (enableCwdShare linux_host) default_config)).
  intros m Hm. apply list_elem_of_singleton in Hm as ->.
  apply (bool_decide_unpack _). vm_compute. exact I.
Defined.

(** X5. [enableGUI] never shows in the text of the mounts that is not
    verbose: the X11 socket mount it adds is one of the hidden ones.  In the
    verbose text the call that sets the flag adds the line of that
    mount. *)
Theorem enableGUI_mounts_text (linesep : string) (h : Host) (c : ContainerConfig) :
  getTextMounts linesep false (exec (enableGUI h) c) = getTextMounts linesep false c ∧
  (on_windows h = false → enable_gui c = false →
     getTextMounts linesep true (exec (enableGUI h) c)
       = getTextMounts linesep true c
         +:+ "/tmp/.X11-unix :right_arrow: /tmp/.X11-unix " +:+ linesep).
Proof.
  assert (∀ verbose, on_windows h = false → enable_gui c = false →
            getTextMounts linesep verbose (exec (enableGUI h) c)
            = getTextMounts linesep verbose c
              +:+ getTextMounts linesep verbose
                    (set_mounts [bind_mount "/tmp/.X11-unix" false] c)) as Hadd.
  { intros verbose Hsup Hgui. rewrite <- getTextMounts_app.
    unfold_call. rewrite Hsup, Hgui. reflexivity. }
  split.
  - destruct (on_windows h) eqn:Hsup; [by unfold_call; rewrite Hsup |].
    destruct (enable_gui c) eqn:Hgui; [by unfold_call; rewrite Hsup, Hgui |].
    rewrite Hadd, getTextMounts_single by done. apply string_app_empty_r.
  - intros Hsup Hgui. by rewrite Hadd, getTextMounts_single.
Qed.

Lemma enableGUI_mounts_text_witness :
  getTextMounts newline true (exec (enableGUI linux_host) default_config)
    = getTextMounts newline true default_config
      +:+ "/tmp/.X11-unix :right_arrow: /tmp/.X11-unix " +:+ newline.
Proof.
  apply (enableGUI_mounts_text newline linux_host default_config); reflexivity.
Defined.

(** X6. [addVolume] adds one line at the end of the verbose text of the
    mounts, "host :right_arrow: container " followed by "(RO)" for a
    read-only mount; the text that is not verbose gains the same line
    unless the container path is /tmp/.X11-unix or /opt/resources, when it
    does not change. *)
Theorem addVolume_mounts_text (linesep : string) (host_path container_path : string)
    (read_only : bool) (volume_type : string) (c : ContainerConfig) :
  let c' := exec (addVolume host_path container_path read_only volume_type) c in
  let line := host_path +:+ " :right_arrow: " +:+ container_path +:+ " "
              +:+ (if read_only then "(RO)" else "") +:+ linesep in
  getTextMounts linesep true c' = getTextMounts linesep true c +:+ line ∧
  getTextMounts linesep false c'
    = if bool_decide (container_path ∈ ["/tmp/.X11-unix"; "/opt/resources"])
      then getTextMounts linesep false c
      else getTextMounts linesep false c +:+ line.
Proof.
  intros c' line. subst c'. unfold addVolume, exec, modify. simpl.
  rewrite !getTextMounts_app, !getTextMounts_single. simpl.
  split; [reflexivity |].
  assert (Some container_path ∈ technical_targets
          ↔ container_path ∈ ["/tmp/.X11-unix"; "/opt/resources"]) as Heq.
  { change technical_targets with (Some <$> ["/tmp/.X11-unix"; "/opt/resources"]).
    apply (list_elem_of_fmap_inj Some). }
  rewrite (bool_decide_ext _ _ Heq).
  destruct (bool_decide _); [apply string_app_empty_r | reflexivity].
Qed.

Lemma split_nonempty (sep : ascii) (s : string) : split sep s ≠ [].
Proof.
  pose proof (split_length sep s) as Hlen. destruct (split sep s); [discriminate | done].
Qed.

(** A text free of the separator, the separator, and more text: the first
    piece is the text before the separator. *)
Lemma split_app_sep (sep : ascii) (s t : string) :
  count sep s = 0 → split sep (s +:+ String sep t) = s :: split sep t.
Proof.
  induction s as [|a s IH]; simpl.
  - intros _. by rewrite Ascii.eqb_refl.
  - change (String a s +:+ String sep t) with (String a (s +:+ String sep t)).
    simpl. destruct (Ascii.eqb a sep); simpl; [discriminate |].
    intros Hs. by rewrite (IH Hs).
Qed.

Lemma getTextDevices_single (linesep : string) (verbose : bool)
    (c : ContainerConfig) (device : string) :
  getTextDevices linesep verbose (set_devices [device] c)
  = if verbose then device +:+ linesep
    else String.concat ":right_arrow:" (take 2 (split ":"%char device)) +:+ linesep.
Proof. unfold getTextDevices. simpl. by destruct verbose. Qed.

(** X7. [addDevice] stores "source:dest:perm", the destination being the
    source when none is given and perm being "r", then "w" unless
    read-only, then "m" if mknod is allowed.  The verbose text of the
    devices gains that text as its last line; when neither path holds a
    colon, the text that is not verbose gains the line
    "source:right_arrow:dest". *)
Theorem addDevice_devices_text (linesep : string) (device_source : string)
    (device_dest : option string) (readonly mknod : bool) (c : ContainerConfig) :
  let c' := exec (addDevice device_source device_dest readonly mknod) c in
  let dest := default device_source device_dest in
  let perm := "r" +:+ (if readonly then "" else "w") +:+ (if mknod then "m" else "") in
  devices c' = devices c ++ [device_source +:+ ":" +:+ dest +:+ ":" +:+ perm] ∧
  getTextDevices linesep true c'
    = getTextDevices linesep true c
      +:+ device_source +:+ ":" +:+ dest +:+ ":" +:+ perm +:+ linesep ∧
  (count ":"%char device_source = 0 → count ":"%char dest = 0 →
     getTextDevices linesep false c'
       = getTextDevices linesep false c
         +:+ device_source +:+ ":right_arrow:" +:+ dest +:+ linesep).
Proof.
  intros c' dest perm.
  assert (c' = set_devices
                 (devices c ++ [device_source +:+ ":" +:+ dest +:+ ":" +:+ perm]) c) as ->.
  { subst c' dest perm. unfold addDevice, exec, modify. simpl.
    by destruct readonly, mknod. }
  split; [reflexivity |].
  rewrite !getTextDevices_app, !getTextDevices_single. split.
  - by rewrite !string_app_assoc.
  - intros Hsource Hdest.
    change (device_source +:+ ":" +:+ dest +:+ ":" +:+ perm)
      with (device_source +:+ String ":"%char (dest +:+ String ":"%char perm)).
    rewrite (split_app_sep _ _ _ Hsource), (split_app_sep _ _ _ Hdest).
    simpl. destruct (split ":"%char perm) eqn:Hperm; [by apply split_nonempty in Hperm |].
    simpl. by rewrite !string_app_assoc.
Qed.

Lemma addDevice_devices_text_witness :
  getTextDevices newline false (exec (addDevice "/dev/snd" None false true) default_config)
    = getTextDevices newline false default_config
      +:+ "/dev/snd" +:+ ":right_arrow:" +:+ "/dev/snd" +:+ newline.
Proof.
  apply (addDevice_devices_text newline "/dev/snd" None false true default_config);
    reflexivity.
Defined.

(** ** The unguarded toggle *)

(** X8. [enableCwdShare] is not guarded by a flag: every call sets
    sharedCwd to the current directory and appends one more bind mount of it
    on /workspace, so two calls leave two such mounts and the directory of
    the second call. *)
Theorem enableCwdShare_repeats (h h' : Host) (c : ContainerConfig) :
  let workspace_mount (h : Host) :=
    {| mount_target := Some "/workspace"; mount_source := Some (getcwd h);
       mount_type := "bind"; mount_read_only := false; mount_propagation := None |} in
  exec (enableCwdShare h) c
    = set_mounts (mounts c ++ [workspace_mount h]) (set_share_cwd (Some (getcwd h)) c) ∧
  mounts (exec (enableCwdShare h ;; enableCwdShare h') c)
    = mounts c ++ [workspace_mount h; workspace_mount h'] ∧
  share_cwd (exec (enableCwdShare h ;; enableCwdShare h') c) = Some (getcwd h') ∧
  result (enableCwdShare h ;; enableCwdShare h') c = Return tt.
Proof.
  intros workspace_mount. unfold_call. simpl. rewrite <- app_assoc. done.
Qed.

(** ** Hydration, step by step *)

(** What [__init__] computes from a container: the outcome of the
    environment entries decides first, then the presence of the networks;
    the fields are written in the order of the code. *)
Lemma init_unfold (attrs : ContainerAttrs) :
  let config := default empty_ConfigSection (attrs_Config attrs) in
  let host_config := default empty_HostConfigSection (attrs_HostConfig attrs) in
  let network := default empty_NetworkSettingsSection (attrs_NetworkSettings attrs) in
  init (Some attrs) =
    match parseEnvs (default [] (config_Env config))
            (set_tty (default true (config_Tty config)) default_config) with
    | (Raise e, _) => Raise e
    | (Return _, c1) =>
        match network_Networks network with
        | None => Raise (KeyError "Networks")
        | Some networks =>
            Return
              (set_ports (default ∅ (network_Ports network))
              (set_network_host (bool_decide ("host" ∈ networks))
              (exec (parseMounts (jget [] (attrs_Mounts attrs)))
              (set_common_resources false
              (set_share_timezone false
              (set_devices (default [] (jget [] (hostconfig_Devices host_config)))
              (set_privileged (default false (hostconfig_Privileged host_config))
              (set_enable_gui
                 (existsb (contains "DISPLAY") (map_to_list (envs c1)).*1)
              (set_interactive (default true (config_OpenStdin config)) c1)))))))))
        end
    end.
Proof.
  intros config host_config network.
  unfold init, parseContainerConfig. fold config host_config network.
  unfold mbind, M_bind, modify, get, mret, M_ret.
  destruct (parseEnvs _ _) as [[[]|e] c1]; [| reflexivity]. simpl.
  destruct (existsb _ _).
  all: match goal with
       | |- context [parseMounts ?m ?c0] =>
           pose proof (parseMounts_returns (default [] m) c0) as Hm;
           unfold result in Hm; fold (parseMounts m) in Hm;
           rewrite (surjective_pairing (parseMounts m c0)), Hm
       end.
  all: unfold exec; by destruct (network_Networks network).
Qed.

Lemma parseMount_frame (share : Share) (c : ContainerConfig) :
  exec (parseMount share) c
  = set_share_cwd (share_cwd (exec (parseMount share) c))
      (set_common_resources (common_resources (exec (parseMount share) c))
      (set_share_timezone (share_timezone (exec (parseMount share) c))
      (set_mounts (mounts (exec (parseMount share) c)) c))).
Proof.
  unfold parseMount. unfold_M. destruct c. simpl.
  repeat (case_match; simpl; try reflexivity).
Qed.

Lemma parseMounts_cons (share : Share) (l : list Share) (c : ContainerConfig) :
  exec (for_each (share :: l) parseMount) c
  = exec (for_each l parseMount) (exec (parseMount share) c).
Proof.
  unfold exec. simpl. unfold mbind, M_bind.
  pose proof (parseMount_returns share c) as Hr. unfold result in Hr.
  destruct (parseMount share c) as [r c1]. simpl in Hr. by subst r.
Qed.

Lemma parseMounts_frame (l : list Share) (c : ContainerConfig) :
  exec (for_each l parseMount) c
  = set_share_cwd (share_cwd (exec (for_each l parseMount) c))
      (set_common_resources (common_resources (exec (for_each l parseMount) c))
      (set_share_timezone (share_timezone (exec (for_each l parseMount) c))
      (set_mounts (mounts (exec (for_each l parseMount) c)) c))).
Proof.
  revert c. induction l as [|share l IH]; intros c.
  - destruct c; reflexivity.
  - rewrite parseMounts_cons. rewrite IH at 1. rewrite (parseMount_frame share c) at 5.
    reflexivity.
Qed.

(** The entries before the first one that does not parse are stored; the
    loop stops there. *)
Lemma parseEnvs_stops (l1 l2 : list string) (env : string) (c : ContainerConfig) :
  Forall (λ env, count equals (unquote env) = 1) l1 →
  count equals (unquote env) ≠ 1 →
  parseEnvs (l1 ++ env :: l2) c = (Raise ValueError, exec (parseEnvs l1) c).
Proof.
  unfold parseEnvs, exec. revert c. induction l1 as [|e l1 IH]; intros c Hvalid Hbad; simpl.
  - unfold mbind, M_bind. by rewrite (proj2 (parseEnv_spec env c) Hbad).
  - apply Forall_cons in Hvalid as [He Hvalid].
    destruct (proj1 (parseEnv_spec e c) He) as (k & v & _ & _ & _ & Hrun).
    unfold mbind, M_bind. rewrite Hrun. by apply IH.
Qed.

Lemma parseEnvs_result (l : list string) (c : ContainerConfig) :
  (Forall (λ env, count equals (unquote env) = 1) l →
     result (parseEnvs l) c = Return tt) ∧
  (¬ Forall (λ env, count equals (unquote env) = 1) l →
     result (parseEnvs l) c = Raise ValueError).
Proof.
  split.
  - intros Hvalid. destruct (parseEnvs_last_wins l c Hvalid) as (c' & Hrun & _).
    unfold result. by rewrite Hrun.
  - intros Hbad. apply not_Forall_Exists in Hbad; [| apply _].
    assert (∃ l1 env l2, l = l1 ++ env :: l2 ∧
              Forall (λ env, count equals (unquote env) = 1) l1 ∧
              count equals (unquote env) ≠ 1) as (l1 & env & l2 & -> & Hl1 & Henv).
    { induction Hbad as [env l Henv | e l Hbad IH].
      - exists [], env, l. done.
      - destruct (decide (count equals (unquote e) = 1)) as [He | He].
        + destruct IH as (l1 & env & l2 & -> & Hl1 & Henv).
          exists (e :: l1), env, l2. split; [done |]. split; [by constructor | done].
        + exists [], e, l. done. }
    unfold result. by rewrite parseEnvs_stops.
Qed.

Lemma parseEnvs_keys (l : list string) (c c' : ContainerConfig) :
  parseEnvs l c = (Return tt, c') →
  ∀ k, is_Some (envs c' !! k) ↔ is_Some (envs c !! k) ∨ k ∈ env_key <$> l.
Proof.
  unfold parseEnvs. revert c. induction l as [|env l IH]; intros c Hrun k; simpl in *.
  - injection Hrun as <-. rewrite elem_of_nil. tauto.
  - unfold mbind, M_bind in Hrun.
    destruct (decide (count equals (unquote env) = 1)) as [He | He].
    + destruct (proj1 (parseEnv_spec env c) He) as (k0 & v0 & _ & Hkey & _ & Hhead).
      rewrite Hhead in Hrun. rewrite (IH _ Hrun k). simpl.
      rewrite lookup_insert_is_Some', elem_of_cons, Hkey. split.
      * intros [[Hk | H] | H]; [right; left; done | by left | by right; right].
      * intros [H | [Hk | H]]; [left; by right | left; left; done | by right].
    + rewrite (proj2 (parseEnv_spec env c) He) in Hrun. discriminate.
Qed.

Lemma init_returns (attrs : ContainerAttrs) (c : ContainerConfig) :
  let config := default empty_ConfigSection (attrs_Config attrs) in
  let host_config := default empty_HostConfigSection (attrs_HostConfig attrs) in
  let network := default empty_NetworkSettingsSection (attrs_NetworkSettings attrs) in
  init (Some attrs) = Return c →
  ∃ c1 networks,
    parseEnvs (default [] (config_Env config))
      (set_tty (default true (config_Tty config)) default_config) = (Return tt, c1) ∧
    network_Networks network = Some networks ∧
    c = set_ports (default ∅ (network_Ports network))
          (set_network_host (bool_decide ("host" ∈ networks))
          (exec (for_each (default [] (jget [] (attrs_Mounts attrs))) parseMount)
          (set_common_resources false
          (set_share_timezone false
          (set_devices (default [] (jget [] (hostconfig_Devices host_config)))
          (set_privileged (default false (hostconfig_Privileged host_config))
          (set_enable_gui
             (existsb (contains "DISPLAY") (map_to_list (envs c1)).*1)
          (set_interactive (default true (config_OpenStdin config)) c1)))))))).
Proof.
  intros config host_config network. rewrite init_unfold.
  fold config host_config network.
  destruct (parseEnvs _ _) as [[[]|e] c1]; [| discriminate].
  destruct (network_Networks network) as [networks|]; [| discriminate].
  intros [= <-]. by exists c1, networks.
Qed.

Lemma parseEnvs_state (l : list string) (c c' : ContainerConfig) (r : outcome unit) :
  parseEnvs l c = (r, c') → c' = set_envs (envs c') c.
Proof.
  intros Hrun. pose proof (parseEnvs_frame l c) as Hframe.
  unfold exec in Hframe. by rewrite Hrun in Hframe.
Qed.

Lemma existsb_keys (test : string → bool) (m : gmap string string) :
  existsb test (map_to_list m).*1 = true ↔ ∃ k, is_Some (m !! k) ∧ test k = true.
Proof.
  rewrite existsb_exists. split.
  - intros (k & Hin & Htest). exists k. split; [| done].
    apply list_elem_of_In, list_elem_of_fmap in Hin as ([k' v] & -> & Hin).
    apply elem_of_map_to_list in Hin. by exists v.
  - intros (k & [v Hv] & Htest). exists k. split; [| done].
    apply list_elem_of_In, list_elem_of_fmap. exists (k, v).
    split; [done | by apply elem_of_map_to_list].
Qed.

Lemma parseMounts_flags (l : list Share) (c : ContainerConfig) :
  (share_timezone (exec (for_each l parseMount) c) = true ↔
     share_timezone c = true ∨
     ∃ share, share ∈ l ∧
       contains "/etc/timezone" (default "" (share_Destination share)) = true) ∧
  (common_resources (exec (for_each l parseMount) c) = true ↔
     common_resources c = true ∨
     ∃ share, share ∈ l ∧
       contains "/etc/timezone" (default "" (share_Destination share)) = false ∧
       contains "/opt/resources" (default "" (share_Destination share)) = true).
Proof.
  revert c. induction l as [|share l IH]; intros c.
  - simpl. split; (split; [by left | intros [H | (s & Hs & _)];
                                     [done | by apply elem_of_nil in Hs]]).
  - rewrite parseMounts_cons. destruct (IH (exec (parseMount share) c)) as [IHtz IHres].
    rewrite IHtz, IHres. clear IH IHtz IHres.
    assert (share_timezone (exec (parseMount share) c)
              = (contains "/etc/timezone" (default "" (share_Destination share))
                 || share_timezone c) ∧
            common_resources (exec (parseMount share) c)
              = (negb (contains "/etc/timezone" (default "" (share_Destination share)))
                 && contains "/opt/resources" (default "" (share_Destination share))
                 || common_resources c)) as [-> ->].
    { unfold parseMount. unfold_M. simpl.
      destruct (contains "/etc/timezone" (default "" (share_Destination share))),
        (contains "/opt/resources" (default "" (share_Destination share))),
        (contains "/workspace" (default "" (share_Destination share))); simpl; done. }
    setoid_rewrite elem_of_cons. split.
    + rewrite orb_true_iff. split.
      * intros [[H | H] | (s & Hs & H)]; [right; exists share; auto | by left |].
        right. exists s. auto.
      * intros [H | (s & [-> | Hs] & H)]; [left; by right | left; by left |].
        right. by exists s.
    + rewrite orb_true_iff, andb_true_iff, negb_true_iff. split.
      * intros [[H | H] | (s & Hs & H)]; [right; exists share; auto | by left |].
        right. exists s. auto.
      * intros [H | (s & [-> | Hs] & H)]; [left; by right | left; by left |].
        right. by exists s.
Qed.

Lemma parseMounts_mounts (l : list Share) (c : ContainerConfig) :
  mount_target <$> mounts (exec (for_each l parseMount) c)
    = (mount_target <$> mounts c) ++ (share_Destination <$> l) ∧
  mount_read_only <$> mounts (exec (for_each l parseMount) c)
    = (mount_read_only <$> mounts c) ++ ((λ s, negb (default true (share_RW s))) <$> l) ∧
  mount_type <$> mounts (exec (for_each l parseMount) c)
    = (mount_type <$> mounts c) ++ ((λ s, default "volume" (share_Type s)) <$> l) ∧
  mount_source <$> mounts (exec (for_each l parseMount) c)
    = (mount_source <$> mounts c)
      ++ ((λ s, if bool_decide (default "volume" (share_Type s) = "volume")
                then Some ("Docker " +:+ default "" (share_Driver s) +:+ " volume "
                           +:+ default "unknown" (share_Name s))
                else share_Source s) <$> l).
Proof.
  revert c. induction l as [|share l IH]; intros c.
  - simpl. by rewrite !app_nil_r.
  - rewrite parseMounts_cons. destruct (IH (exec (parseMount share) c)) as (-> & -> & -> & ->).
    assert (mounts (exec (parseMount share) c)
            = mounts c ++ [ {|
                mount_target := share_Destination share;
                mount_source :=
                  if bool_decide (default "volume" (share_Type share) = "volume")
                  then Some ("Docker " +:+ default "" (share_Driver share) +:+ " volume "
                             +:+ default "unknown" (share_Name share))
                  else share_Source share;
                mount_type := default "volume" (share_Type share);
                mount_read_only := negb (default true (share_RW share));
                mount_propagation := Some (default "" (share_Propagation share)) |} ]) as ->.
    { unfold parseMount. unfold_M. simpl.
      repeat (case_match; simpl; try reflexivity). }
    rewrite !fmap_app, !fmap_cons, <- !app_assoc. done.
Qed.

(** ** Hydration: outcome and fields *)

(** X9. The environment entries decide first.  When some entry of the
    container's environment list, unquoted, does not hold exactly one equals
    sign, the hydration raises ValueError, whatever the mounts and the
    network settings are.  And a hydration that returns a configuration had
    only entries with exactly one equals sign and network settings with a
    "Networks" key. *)
Theorem init_outcome (attrs : ContainerAttrs) :
  let env := default [] (config_Env (default empty_ConfigSection (attrs_Config attrs))) in
  let network := default empty_NetworkSettingsSection (attrs_NetworkSettings attrs) in
  (¬ Forall (λ e, count equals (unquote e) = 1) env →
     init (Some attrs) = Raise ValueError) ∧
  (∀ c, init (Some attrs) = Return c →
     Forall (λ e, count equals (unquote e) = 1) env ∧
     is_Some (network_Networks network)).
Proof.
  intros env network. rewrite init_unfold. fold env network.
  set (c0 := set_tty _ default_config).
  destruct (parseEnvs_result env c0) as [Hok Hko]. unfold result in Hok, Hko.
  destruct (parseEnvs env c0) as [r c1]. simpl in Hok, Hko.
  split.
  - intros Hbad. by rewrite (Hko Hbad).
  - intros c Hinit.
    destruct (decide (Forall (λ e, count equals (unquote e) = 1) env)) as [Hvalid | Hbad].
    + split; [exact Hvalid |]. rewrite (Hok Hvalid) in Hinit.
      destruct (network_Networks network); [by eexists | discriminate].
    + by rewrite (Hko Hbad) in Hinit.
Qed.

Lemma init_outcome_witness :
  init (Some (bridge_container ["PATH=/usr/bin"; "TERM"]
                [bind_share "/srv/data" "/data"])) = Raise ValueError.
Proof.
  apply (init_outcome (bridge_container ["PATH=/usr/bin"; "TERM"]
                         [bind_share "/srv/data" "/data"])).
  intros Hvalid. apply Forall_cons in Hvalid as [_ Hvalid].
  apply Forall_cons in Hvalid as [Hterm _]. discriminate Hterm.
Defined.

(** X10. When an entry of the environment list does not parse, the entries
    before it are stored and the ones after it are not looked at: the call
    raises ValueError and leaves the configuration as the entries before the
    bad one made it. *)
Theorem parseEnvs_keeps_entries_before_error (l1 l2 : list string) (env : string)
    (c : ContainerConfig) :
  Forall (λ e, count equals (unquote e) = 1) l1 →
  count equals (unquote env) ≠ 1 →
  parseEnvs (l1 ++ env :: l2) c = (Raise ValueError, exec (parseEnvs l1) c) ∧
  ∀ k, is_Some (envs (exec (parseEnvs (l1 ++ env :: l2)) c) !! k)
       ↔ is_Some (envs c !! k) ∨ k ∈ env_key <$> l1.
Proof.
  intros Hvalid Hbad. pose proof (parseEnvs_stops l1 l2 env c Hvalid Hbad) as Hrun.
  split; [exact Hrun |]. intros k. unfold exec at 1. rewrite Hrun. simpl.
  destruct (parseEnvs_last_wins l1 c Hvalid) as (c' & Hrun1 & _).
  unfold exec. rewrite Hrun1. simpl. by apply (parseEnvs_keys l1 c c').
Qed.

Lemma parseEnvs_keeps_entries_before_error_witness :
  parseEnvs (["A=1"] ++ "B" :: ["C=3"]) default_config
    = (Raise ValueError, exec (parseEnvs ["A=1"]) default_config).
Proof.
  apply (parseEnvs_keeps_entries_before_error ["A=1"] ["C=3"] "B" default_config).
  - repeat constructor.
  - discriminate.
Defined.

(** X11. A hydrated configuration has the GUI flag set exactly when the key
    of some environment entry of the container contains "DISPLAY". *)
Theorem init_gui_flag (attrs : ContainerAttrs) (c : ContainerConfig) :
  init (Some attrs) = Return c →
  (enable_gui c = true ↔
   ∃ env, env ∈ default [] (config_Env (default empty_ConfigSection (attrs_Config attrs))) ∧
          contains "DISPLAY" (env_key env) = true).
Proof.
  intros Hinit. apply init_returns in Hinit as (c1 & networks & Henv & _ & ->).
  simpl. rewrite parseMounts_frame. simpl. rewrite existsb_keys. split.
  - intros (k & Hk & Htest). apply (parseEnvs_keys _ _ _ Henv) in Hk as [Hk | Hk].
    + simpl in Hk. rewrite lookup_empty in Hk. by destruct Hk.
    + apply list_elem_of_fmap in Hk as (env & -> & Hin). by exists env.
  - intros (env & Hin & Htest). exists (env_key env). split; [| done].
    apply (parseEnvs_keys _ _ _ Henv). right. by apply list_elem_of_fmap_2.
Qed.

Lemma init_gui_flag_witness :
  ∃ c, init (Some (bridge_container ["PATH=/usr/bin"; "DISPLAY=unix:0"] [])) = Return c ∧
       enable_gui c = true.
Proof.
  eexists. split; [vm_compute; reflexivity |].
  apply (init_gui_flag (bridge_container ["PATH=/usr/bin"; "DISPLAY=unix:0"] [])).
  - vm_compute. reflexivity.
  - exists "DISPLAY=unix:0". split; [| reflexivity].
    apply list_elem_of_further, list_elem_of_here.
Defined.

(** X12. A hydrated configuration has the timezone flag set exactly when
    the target of some mount contains /etc/timezone, and the common
    resources flag exactly when the target of some mount contains
    /opt/resources and not /etc/timezone. *)
Theorem init_mount_flags (attrs : ContainerAttrs) (c : ContainerConfig) :
  init (Some attrs) = Return c →
  (share_timezone c = true ↔
   ∃ share, share ∈ default [] (jget [] (attrs_Mounts attrs)) ∧
     contains "/etc/timezone" (default "" (share_Destination share)) = true) ∧
  (common_resources c = true ↔
   ∃ share, share ∈ default [] (jget [] (attrs_Mounts attrs)) ∧
     contains "/etc/timezone" (default "" (share_Destination share)) = false ∧
     contains "/opt/resources" (default "" (share_Destination share)) = true).
Proof.
  intros Hinit. apply init_returns in Hinit as (c1 & networks & _ & _ & ->). simpl.
  match goal with
  | |- context [exec (for_each ?l parseMount) ?c0] =>
      destruct (parseMounts_flags l c0) as [-> ->]
  end.
  simpl. split; (split; [intros [H | H]; [discriminate | exact H] | by right]).
Qed.

Lemma init_mount_flags_witness :
  ∃ c, init (Some (bridge_container []
                     [bind_share "/opt/exegol" "/opt/resources/etc/timezone"])) = Return c ∧
       share_timezone c = true ∧ common_resources c = false.
Proof.
  eexists. split; [vm_compute; reflexivity |].
  split; [| reflexivity].
  apply (init_mount_flags
           (bridge_container [] [bind_share "/opt/exegol" "/opt/resources/etc/timezone"])).
  - vm_compute. reflexivity.
  - exists (bind_share "/opt/exegol" "/opt/resources/etc/timezone").
    split; [apply list_elem_of_here | reflexivity].
Defined.

(** X13. A hydrated configuration holds one mount for each mount of the
    inspection, in the same order: with the inspected target, read-only
    exactly when the inspection says RW is false (a missing RW counts as
    writable), with the inspected type ("volume" when missing), and with
    the inspected source, or the label "Docker <driver> volume <name>"
    when the type is "volume" or missing. *)
Theorem init_mounts (attrs : ContainerAttrs) (c : ContainerConfig) :
  init (Some attrs) = Return c →
  let shares := default [] (jget [] (attrs_Mounts attrs)) in
  length (mounts c) = length shares ∧
  mount_target <$> mounts c = share_Destination <$> shares ∧
  mount_read_only <$> mounts c = (λ s, negb (default true (share_RW s))) <$> shares ∧
  mount_type <$> mounts c = (λ s, default "volume" (share_Type s)) <$> shares ∧
  mount_source <$> mounts c
    = (λ s, if bool_decide (default "volume" (share_Type s) = "volume")
            then Some ("Docker " +:+ default "" (share_Driver s) +:+ " volume "
                       +:+ default "unknown" (share_Name s))
            else share_Source s) <$> shares.
Proof.
  intros Hinit shares. apply init_returns in Hinit as (c1 & networks & Henv & _ & ->).
  fold shares. simpl.
  match goal with
  | |- context [exec (for_each shares parseMount) ?c0] =>
      destruct (parseMounts_mounts shares c0) as (Ht & Hro & Hty & Hsrc);
      assert (mounts c0 = []) as Hnil
  end.
  { simpl. by rewrite (parseEnvs_state _ _ _ _ Henv). }
  rewrite Hnil in Ht, Hro, Hty, Hsrc. simpl in Ht, Hro, Hty, Hsrc.
  split; [| done].
  rewrite <- (length_fmap mount_target), Ht. apply length_fmap.
Qed.

Lemma init_mounts_witness :
  ∃ c, init (Some (bridge_container [] [bind_share "/srv/data" "/data"])) = Return c ∧
       mount_target <$> mounts c = [Some "/data"].
Proof.
  eexists. split; [vm_compute; reflexivity |].
  apply (init_mounts (bridge_container [] [bind_share "/srv/data" "/data"])).
  vm_compute. reflexivity.
Defined.

(** X14. The other fields of a hydrated configuration are the inspected
    values, or the defaults of a fresh configuration for the keys that are
    missing: tty and interactive default to true, privileged to false, the
    devices to none (also when the key holds null), the port table to the
    empty one; the shared-memory size stays "1G", and the network mode is
    host exactly when "host" is one of the networks. *)
Theorem init_scalars (attrs : ContainerAttrs) (c : ContainerConfig) :
  init (Some attrs) = Return c →
  let config := default empty_ConfigSection (attrs_Config attrs) in
  let host_config := default empty_HostConfigSection (attrs_HostConfig attrs) in
  let network := default empty_NetworkSettingsSection (attrs_NetworkSettings attrs) in
  tty c = default true (config_Tty config) ∧
  interactive c = default true (config_OpenStdin config) ∧
  privileged c = default false (hostconfig_Privileged host_config) ∧
  devices c = default [] (jget [] (hostconfig_Devices host_config)) ∧
  shm_size c = "1G" ∧
  ports c = default ∅ (network_Ports network) ∧
  ∃ networks, network_Networks network = Some networks ∧
              (network_host c = true ↔ "host" ∈ networks).
Proof.
  intros Hinit config host_config network.
  apply init_returns in Hinit as (c1 & networks & Henv & Hnet & ->).
  fold config host_config network in Henv, Hnet |- *.
  simpl. rewrite parseMounts_frame. simpl.
  rewrite (parseEnvs_state _ _ _ _ Henv). simpl.
  repeat (split; [reflexivity |]).
  exists networks. split; [exact Hnet |]. apply bool_decide_eq_true.
Qed.

Lemma init_scalars_witness :
  ∃ c, init (Some {| attrs_Config := None; attrs_HostConfig := None;
                     attrs_Mounts := Null;
                     attrs_NetworkSettings :=
                       Some {| network_Networks := Some {[ "host" ]};
                               network_Ports := None |} |}) = Return c ∧
       tty c = true ∧ devices c = [] ∧ ports c = ∅.
Proof.
  eexists. split; [vm_compute; reflexivity |].
  match goal with
  | |- tty ?c = _ ∧ _ =>
      pose proof (init_scalars
        {| attrs_Config := None; attrs_HostConfig := None; attrs_Mounts := Null;
           attrs_NetworkSettings :=
             Some {| network_Networks := Some {[ "host" ]}; network_Ports := None |} |}
        c) as H
  end.
  destruct H as (Htty & _ & _ & Hdev & _ & Hports & _); [vm_compute; reflexivity |].
  split; [exact Htty |]. split; [exact Hdev | exact Hports].
Defined.

(** ** Environment variables *)

(** X15. [addEnv] is an upsert: the key reads back the value given, every
    other key reads as before, no other field changes, and of two calls on
    the same key the second one wins. *)
Theorem addEnv_upsert (key value value' : string) (c : ContainerConfig) :
  envs (exec (addEnv key value) c) !! key = Some value ∧
  (∀ k, k ≠ key → envs (exec (addEnv key value) c) !! k = envs c !! k) ∧
  exec (addEnv key value) c = set_envs (envs (exec (addEnv key value) c)) c ∧
  (addEnv key value ;; addEnv key value') c = addEnv key value' c.
Proof.
  unfold_call. simpl. split; [apply lookup_insert_eq |].
  split; [intros k Hk; by apply lookup_insert_ne |].
  split; [reflexivity |]. by rewrite insert_insert_eq.
Qed.

(** X16. The call of [enableGUI] that sets the flag writes the two
    variables over whatever they held: QT_X11_NO_MITSHM reads "1" and
    DISPLAY reads "unix" followed by the host's DISPLAY, or "unixNone" when
    the host has none; the other variables are left as they were. *)
Theorem enableGUI_envs (h : Host) (c : ContainerConfig) :
  on_windows h = false → enable_gui c = false →
  envs (exec (enableGUI h) c) !! "QT_X11_NO_MITSHM" = Some "1" ∧
  envs (exec (enableGUI h) c) !! "DISPLAY"
    = Some ("unix" +:+ default "None" (env_DISPLAY h)) ∧
  (∀ k, k ≠ "QT_X11_NO_MITSHM" → k ≠ "DISPLAY" →
        envs (exec (enableGUI h) c) !! k = envs c !! k).
Proof.
  intros Hsup Hgui. unfold_call. rewrite Hsup, Hgui. simpl. split; [| split].
  - by rewrite lookup_insert_ne, lookup_insert_eq.
  - rewrite lookup_insert_eq. by destruct (env_DISPLAY h).
  - intros k Hq Hd. by rewrite !lookup_insert_ne.
Qed.

Lemma enableGUI_envs_witness :
  envs (exec (enableGUI {| platform_system := "Darwin"; platform_release := "22.1.0";
                           env_DISPLAY := None; getcwd := "/" |})
             (exec (addEnv "DISPLAY" ":7") default_config)) !! "DISPLAY"
    = Some "unixNone".
Proof.
  apply (enableGUI_envs {| platform_system := "Darwin"; platform_release := "22.1.0";
                           env_DISPLAY := None; getcwd := "/" |}
           (exec (addEnv "DISPLAY" ":7") default_config)); reflexivity.
Defined.

(** ** Hosts and containers on which a toggle does nothing *)

(** X17. [enableGUI] and [enableSharedTimezone] always return normally,
    and each leaves the configuration as it was exactly when the host's
    system is "Windows", or its release contains "microsoft", or the flag of
    the feature is already set. *)
Theorem guarded_toggles_skip (h : Host) (c : ContainerConfig) :
  result (enableGUI h) c = Return tt ∧
  result (enableSharedTimezone h) c = Return tt ∧
  (exec (enableGUI h) c = c ↔
     platform_system h = "Windows" ∨ contains "microsoft" (platform_release h) = true ∨
     enable_gui c = true) ∧
  (exec (enableSharedTimezone h) c = c ↔
     platform_system h = "Windows" ∨ contains "microsoft" (platform_release h) = true ∨
     share_timezone c = true).
Proof.
  assert (on_windows h = true ↔
          platform_system h = "Windows" ∨ contains "microsoft" (platform_release h) = true)
    as Hwin.
  { unfold on_windows. by rewrite orb_true_iff, bool_decide_eq_true. }
  assert (exec (enableGUI h) c = c ↔ on_windows h = true ∨ enable_gui c = true) as Hgui.
  { unfold_call. destruct (on_windows h); simpl; [split; auto |].
    destruct (enable_gui c) eqn:Hflag; simpl; [split; auto |]. split.
    - intros Heq. apply (f_equal enable_gui) in Heq. simpl in Heq. congruence.
    - intros [H | H]; discriminate. }
  assert (exec (enableSharedTimezone h) c = c
          ↔ on_windows h = true ∨ share_timezone c = true) as Htz.
  { unfold_call. destruct (on_windows h); simpl; [split; auto |].
    destruct (share_timezone c) eqn:Hflag; simpl; [split; auto |]. split.
    - intros Heq. apply (f_equal share_timezone) in Heq. simpl in Heq. congruence.
    - intros [H | H]; discriminate. }
  rewrite Hgui, Htz, Hwin. split; [| split; [| split; tauto]].
  - unfold result. unfold_call. destruct (on_windows h); [done |].
    by destruct (enable_gui c).
  - unfold result. unfold_call. destruct (on_windows h); [done |].
    by destruct (share_timezone c).
Qed.



(** X18. On a configuration hydrated from a container the toggles whose
    feature the container already shows do nothing: [enableGUI] when the key
    of an environment entry contains "DISPLAY", [enableSharedTimezone] when
    the target of a mount contains /etc/timezone, and [enableCommonVolume]
    (which then does not raise) when the target of a mount contains
    /opt/resources and not /etc/timezone. *)
Theorem hydrated_toggles_noop (attrs : ContainerAttrs) (c : ContainerConfig) (h : Host) :
  init (Some attrs) = Return c →
  ((∃ env, env ∈ default [] (config_Env (default empty_ConfigSection (attrs_Config attrs))) ∧
           contains "DISPLAY" (env_key env) = true) →
     enableGUI h c = (Return tt, c)) ∧
  ((∃ share, share ∈ default [] (jget [] (attrs_Mounts attrs)) ∧
      contains "/etc/timezone" (default "" (share_Destination share)) = true) →
     enableSharedTimezone h c = (Return tt, c)) ∧
  ((∃ share, share ∈ default [] (jget [] (attrs_Mounts attrs)) ∧
      contains "/etc/timezone" (default "" (share_Destination share)) = false ∧
      contains "/opt/resources" (default "" (share_Destination share)) = true) →
     enableCommonVolume c = (Return tt, c)).
Proof.
  intros Hinit. apply init_returns in Hinit as (c1 & networks & Henv & _ & ->).
  split; [| split].
  - intros (env & Hin & Htest).
    assert (enable_gui (set_ports (default ∅ (network_Ports
              (default empty_NetworkSettingsSection (attrs_NetworkSettings attrs))))
              (set_network_host (bool_decide ("host" ∈ networks))
              (exec (for_each (default [] (jget [] (attrs_Mounts attrs))) parseMount)
              (set_common_resources false (set_share_timezone false
              (set_devices (default [] (jget [] (hostconfig_Devices
                 (default empty_HostConfigSection (attrs_HostConfig attrs)))))
              (set_privileged (default false (hostconfig_Privileged
                 (default empty_HostConfigSection (attrs_HostConfig attrs))))
              (set_enable_gui (existsb (contains "DISPLAY") (map_to_list (envs c1)).*1)
              (set_interactive (default true (config_OpenStdin
                 (default empty_ConfigSection (attrs_Config attrs)))) c1))))))))) = true)
      as Hgui.
    { simpl. rewrite parseMounts_frame. simpl. apply existsb_keys.
      exists (env_key env). split; [| done].
      apply (parseEnvs_keys _ _ _ Henv). right. by apply list_elem_of_fmap_2. }
    unfold enableGUI. unfold mbind, M_bind, get, mret, M_ret.
    destruct (on_windows h); [done |]. by rewrite Hgui.
  - intros Hshare.
    match goal with
    | |- enableSharedTimezone h ?c = _ => assert (share_timezone c = true) as Htz
    end.
    { simpl.
      match goal with
      | |- context [exec (for_each ?l parseMount) ?c0] =>
          apply (proj1 (parseMounts_flags l c0))
      end. by right. }
    unfold enableSharedTimezone. unfold mbind, M_bind, get, mret, M_ret.
    destruct (on_windows h); [done |]. by rewrite Htz.
  - intros Hshare.
    match goal with
    | |- enableCommonVolume ?c = _ => assert (common_resources c = true) as Hres
    end.
    { simpl.
      match goal with
      | |- context [exec (for_each ?l parseMount) ?c0] =>
          apply (proj2 (parseMounts_flags l c0))
      end. by right. }
    unfold enableCommonVolume. unfold mbind, M_bind, get, mret, M_ret.
    by rewrite Hres.
Qed.

Lemma hydrated_toggles_noop_witness :
  ∃ c, init (Some (bridge_container ["DISPLAY=unix:0"] [])) = Return c ∧
       enableGUI linux_host c = (Return tt, c).
Proof.
  eexists. split; [vm_compute; reflexivity |].
  apply (hydrated_toggles_noop (bridge_container ["DISPLAY=unix:0"] [])).
  - vm_compute. reflexivity.
  - exists "DISPLAY=unix:0". split; [apply list_elem_of_here | reflexivity].
Defined.
